(** * Authentication backend and React front ends: a shallow embedding

    The Express routes ([routes/auth.routes]), the bearer-token middleware
    ([middlewares/auth.middleware]), the Sequelize [User] model and the two
    front-end state containers (React Context and Redux Toolkit) are
    rendered as Rocq functions.  Handlers run in a small state-and-exception
    monad whose state survives a [throw], as a JavaScript object mutated
    before an exception does. *)

From Stdlib Require Import String Ascii List ZArith Lia Bool Arith.
From Stdlib Require Import DecimalString DecimalZ.
Import ListNotations.
Local Open Scope string_scope.
Local Open Scope Z_scope.

(* ===================================================================== *)
(** ** JavaScript string primitives used by the sources *)
(* ===================================================================== *)

Module JsString.

(** [s.startsWith(p)]. *)
Definition startsWith (p s : string) : bool := String.prefix p s.

(** Prepend one character to the first piece of a split. *)
Definition push_char (c : ascii) (pieces : list string) : list string :=
  match pieces with
  | [] => [String c EmptyString]
  | w :: ws => String c w :: ws
  end.

(** [s.split(sep)] for a one-character separator: the result is never
    empty, and has one more piece than there are separators in [s]. *)
Fixpoint split (sep : ascii) (s : string) : list string :=
  match s with
  | EmptyString => [EmptyString]
  | String c s' =>
      if Ascii.eqb c sep then EmptyString :: split sep s'
      else push_char c (split sep s')
  end.

(** [s.split(sep)] for a non-empty separator string; [skip] counts the
    characters of an already recognised separator still to be dropped. *)
Fixpoint split_str_from (sep : string) (skip : nat) (s : string) : list string :=
  match s with
  | EmptyString => [EmptyString]
  | String c s' =>
      match skip with
      | S k => split_str_from sep k s'
      | O =>
          if String.prefix sep s
          then EmptyString :: split_str_from sep (Nat.pred (String.length sep)) s'
          else push_char c (split_str_from sep O s')
      end
  end.

Definition split_str (sep s : string) : list string := split_str_from sep O s.

(** [a[i]] on an array: [undefined] (here [None]) out of range. *)
Definition index {A} (i : nat) (a : list A) : option A := nth_error a i.

(** Every character of [s] satisfies [p]. *)
Fixpoint all_chars (p : ascii -> bool) (s : string) : bool :=
  match s with
  | EmptyString => true
  | String c s' => p c && all_chars p s'
  end.

(** Some character of [s] is [c]. *)
Fixpoint mem (c : ascii) (s : string) : bool :=
  match s with
  | EmptyString => false
  | String d s' => Ascii.eqb d c || mem c s'
  end.

(** Overwrite the character at position [i] (no effect out of range). *)
Fixpoint replace_at (i : nat) (c : ascii) (s : string) : string :=
  match s, i with
  | EmptyString, _ => EmptyString
  | String _ s', O => String c s'
  | String d s', S j => String d (replace_at j c s')
  end.

(** JavaScript truthiness of a value that is a string, [null] or
    [undefined]: only a non-empty string is truthy. *)
Definition truthy (v : option string) : bool :=
  match v with
  | Some s => negb (String.eqb s "")
  | None => false
  end.

End JsString.

(* ===================================================================== *)
(** ** Outcomes of a JavaScript computation *)
(* ===================================================================== *)

(** Error kinds a token check can end in (the spec's taxonomy, section 7;
    the [jsonwebtoken] names are 'jwt malformed' / 'invalid token',
    'invalid signature' and [TokenExpiredError]). *)
Inductive JwtError : Type :=
| MalformedToken
| InvalidSignature
| Expired.

(** Columns of the [users] table. *)
Inductive Column : Type :=
| Cid | Cusername | Cemail | Cpassword | CcreatedAt | CupdatedAt.

(** Exceptions that can travel through a handler. *)
Inductive Exn : Type :=
| TypeError                                   (* property access on undefined *)
| JsonWebTokenError (e : JwtError)            (* thrown by jwt.verify *)
| IllegalArguments                            (* bcryptjs on a non-string *)
| WhereUndefined (c : Column)                 (* Sequelize: undefined in a where clause *)
| ValidationError (c : Column)                (* Sequelize: notNull violation *)
| UniqueConstraintError (c : Column)          (* database: duplicate key *)
| ERR_HTTP_HEADERS_SENT                       (* second response on one request *)
| URIError                                    (* decodeURIComponent on a bad escape *)
| SyntaxError.                                (* response.json() on a body that is not JSON *)

Inductive Outcome (A : Type) : Type :=
| Ret (a : A)
| Throw (e : Exn).
Arguments Ret {A} a.
Arguments Throw {A} e.

(* ===================================================================== *)
(** ** Third-party primitives: bcryptjs and the JWT building blocks *)
(* ===================================================================== *)

(** The identity claim carried by a token: [{ email, iat, exp }], the two
    time stamps in epoch seconds. *)
Record Claims : Type := mkClaims {
  c_email : string;
  c_iat : Z;
  c_exp : Z
}.

(** [bcryptjs]: [hash] is [hashSync] on a string and a salt produced by
    [genSaltSync(10)]; [compare] is [compareSync] on two strings. *)
Class Bcrypt : Type := {
  bcrypt_hash : string -> string -> string;
  bcrypt_compare : string -> string -> bool
}.


(** The building blocks of a token: the keyed signature over the signing
    input, rendered as base64url text, and the codec of the claim segment
    (base64url of the JSON payload). *)
Class JwtPrims : Type := {
  hmac : string -> string -> string;
  encode_claims : Claims -> string;
  decode_claims : string -> option Claims
}.

Module Jwt.

(** The base64url alphabet. *)
Definition is_b64url (c : ascii) : bool :=
  let n := N_of_ascii c in
  ((65 <=? n) && (n <=? 90))%N || ((97 <=? n) && (n <=? 122))%N
  || ((48 <=? n) && (n <=? 57))%N || Ascii.eqb c "-" || Ascii.eqb c "_".

(** A token segment: non-empty base64url text. *)
Definition segment_ok (s : string) : bool :=
  negb (String.eqb s "") && JsString.all_chars is_b64url s.

(** What the primitives are assumed to guarantee: signatures and encoded
    claims are segments, and decoding undoes encoding. *)
Record Laws (P : JwtPrims) : Prop := {
  hmac_segment : forall k m, segment_ok (hmac k m) = true;
  encode_segment : forall c, segment_ok (encode_claims c) = true;
  decode_encode : forall c, decode_claims (encode_claims c) = Some c
}.
Arguments hmac_segment {P} _ k m.
Arguments encode_segment {P} _ c.
Arguments decode_encode {P} _ c.

(** base64url of [{"alg":"HS256","typ":"JWT"}]. *)
Definition header_segment : string := "eyJhbGciOiJIUzI1NiIsInR5cCI6IkpXVCJ9".

(** [Math.floor(Date.now() / 1000)]. *)
Definition seconds (now_ms : Z) : Z := now_ms / 1000.

Definition signing_input (h p : string) : string := h ++ "." ++ p.

Section WithPrims.
Context {P : JwtPrims}.

(** Modelled from the spec: [jwt.sign] of the [jsonwebtoken] package is
    not among the sources.  Section 4.2: the claim is [{email, issuedAt:
    now}], [expiresAt = now + ttl]; section 6: three base64url segments
    (header, payload, signature) joined by ['.'], the signature computed
    over header and payload with the signing key. *)
Definition sign (email secret : string) (expiresIn now_ms : Z) : string :=
  let iat := seconds now_ms in
  let p := encode_claims (mkClaims email iat (iat + expiresIn)) in
  signing_input header_segment p ++ "." ++ hmac secret (signing_input header_segment p).

(** The payload and signature segments of the token [sign] returns. *)
Definition payload_of (email : string) (expiresIn now_ms : Z) : string :=
  encode_claims (mkClaims email (seconds now_ms) (seconds now_ms + expiresIn)).

Definition signature_of (email secret : string) (expiresIn now_ms : Z) : string :=
  hmac secret (signing_input header_segment (payload_of email expiresIn now_ms)).

(** Modelled from the spec: [jwt.verify] of the [jsonwebtoken] package is
    not among the sources.  Section 4.3: (1) an input that is missing or
    does not parse into segments is malformed; (2) the signature is
    recomputed over the received header and payload and compared, before
    any field of the payload is trusted; (3) [now >= expiresAt] is an
    expiry; (4) otherwise the embedded claim is returned. *)
Definition verify (token : option string) (secret : string) (now_ms : Z)
  : JwtError + Claims :=
  match token with
  | None => inl MalformedToken
  | Some t =>
      match JsString.split "." t with
      | [h; p; s] =>
          if segment_ok h && segment_ok p && segment_ok s then
            if String.eqb s (hmac secret (signing_input h p)) then
              match decode_claims p with
              | Some c =>
                  if seconds now_ms >=? c_exp c then inl Expired else inr c
              | None => inl MalformedToken
              end
            else inl InvalidSignature
          else inl MalformedToken
      | _ => inl MalformedToken
      end
  end.

(** The keyed signature has no collision under the key [k]: two signing
    inputs that get the same signature are the same input.  This is the
    idealisation under which a signature binds the text it was computed
    over; it is a property of the primitive alone and names no token. *)
Definition collision_free (k : string) : Prop :=
  forall m m', hmac k m = hmac k m' -> m = m'.

End WithPrims.

(** The two segments a forger can touch without the key. *)
Inductive Segment : Type := PayloadSegment | SignatureSegment.

(** The token with segments [h], [p], [s] after the character at
    position [i] of the chosen segment is overwritten with [c]. *)
Definition tamper (seg : Segment) (i : nat) (c : ascii) (h p s : string) : string :=
  match seg with
  | PayloadSegment => h ++ "." ++ JsString.replace_at i c p ++ "." ++ s
  | SignatureSegment => h ++ "." ++ p ++ "." ++ JsString.replace_at i c s
  end.

Definition segment_text (seg : Segment) (p s : string) : string :=
  match seg with
  | PayloadSegment => p
  | SignatureSegment => s
  end.

(** Overwriting position [i] of [text] with [c] changes one character:
    the position exists and holds another character. *)
Definition changes_char (i : nat) (c : ascii) (text : string) : Prop :=
  exists d, String.get i text = Some d /\ d <> c.

End Jwt.

(* ===================================================================== *)
(** ** The [User] model ([models/user.model]) and its table *)
(* ===================================================================== *)

Module Sequelize.

Inductive DataType : Type := STRING | DATE.

(** The options of one column; [define] treats an option that is not
    written as [false], except [allowNull], which defaults to [true]. *)
Record ColumnDecl : Type := {
  type : DataType;
  primaryKey : bool;
  allowNull : bool;
  unique : bool
}.

Definition column (t : DataType) : ColumnDecl :=
  {| type := t; primaryKey := false; allowNull := true; unique := false |}.

Definition with_primaryKey (d : ColumnDecl) : ColumnDecl :=
  {| type := type d; primaryKey := true; allowNull := allowNull d; unique := unique d |}.

Definition with_notNull (d : ColumnDecl) : ColumnDecl :=
  {| type := type d; primaryKey := primaryKey d; allowNull := false; unique := unique d |}.

(** A column the validation of an instance refuses to leave without a
    value: one declared [allowNull: false].  [primaryKey] alone does not
    put a column under this validation. *)
Definition required (d : ColumnDecl) : bool := negb (allowNull d).

(** A column on which the table refuses a second row with the same value. *)
Definition is_key (d : ColumnDecl) : bool := primaryKey d || unique d.

End Sequelize.

(** A row of [users]; the two dates in epoch milliseconds. *)
Record User : Type := mkUser {
  id : string;
  username : string;
  email : string;
  password : string;
  createdAt : Z;
  updatedAt : Z
}.

(** The values handed to [UserModel.create] by its one caller, the
    sign-up route: [id] is the string [uuidv4()] returned; each of the
    other three may be [undefined]. *)
Record Attrs : Type := mkAttrs {
  a_id : string;
  a_username : option string;
  a_email : option string;
  a_password : option string
}.

Module UserModel.
Import Sequelize.

(** [sequelize.define("User", { ... }, { tableName: "users", timestamps: true })]. *)
Definition decl (c : Column) : ColumnDecl :=
  match c with
  | Cid => with_primaryKey (column STRING)
  | Cusername => with_notNull (column STRING)
  | Cemail => with_notNull (column STRING)
  | Cpassword => with_notNull (column STRING)
  | CcreatedAt => with_notNull (column DATE)
  | CupdatedAt => with_notNull (column DATE)
  end.

Definition columns : list Column :=
  [Cid; Cusername; Cemail; Cpassword; CcreatedAt; CupdatedAt].

(** The columns written from the caller's values. *)
Definition string_columns : list Column := [Cid; Cusername; Cemail; Cpassword].

Definition is_some {A} (o : option A) : bool :=
  match o with Some _ => true | None => false end.

(** Does [create] have a value for the column?  The caller always gives
    the id, and [timestamps: true] fills the two dates itself. *)
Definition provided (a : Attrs) (c : Column) : bool :=
  match c with
  | Cid => true
  | Cusername => is_some (a_username a)
  | Cemail => is_some (a_email a)
  | Cpassword => is_some (a_password a)
  | CcreatedAt | CupdatedAt => true
  end.

(** The text stored in a string column of a row. *)
Definition value (c : Column) (u : User) : string :=
  match c with
  | Cid => id u
  | Cusername => username u
  | Cemail => email u
  | Cpassword => password u
  | CcreatedAt | CupdatedAt => ""
  end.

(** The first required column left without a value. *)
Definition notNull_violation (a : Attrs) : option Column :=
  find (fun c => required (decl c) && negb (provided a c)) columns.

(** The first key column on which [u] collides with a stored row. *)
Definition unique_violation (table : list User) (u : User) : option Column :=
  find (fun c => is_key (decl c)
                 && existsb (fun r => String.eqb (value c r) (value c u)) table)
       string_columns.

Definition or_empty (o : option string) : string :=
  match o with Some s => s | None => "" end.

Definition build (a : Attrs) (now_ms : Z) : User :=
  mkUser (a_id a) (or_empty (a_username a)) (or_empty (a_email a))
         (or_empty (a_password a)) now_ms now_ms.

(** [UserModel.create(values)]: validation of the model's declarations,
    then the insertion; the new row and the new table on success. *)
Definition create (a : Attrs) (now_ms : Z) (table : list User)
  : Outcome (User * list User) :=
  match notNull_violation a with
  | Some c => Throw (ValidationError c)
  | None =>
      let u := build a now_ms in
      match unique_violation table u with
      | Some c => Throw (UniqueConstraintError c)
      | None => Ret (u, (table ++ [u])%list)
      end
  end.

(** [UserModel.findOne({ where: { email } })]: the first row with that
    email, [null] when there is none; an [undefined] value in the where
    clause is refused. *)
Definition findOne (e : option string) (table : list User) : Outcome (option User) :=
  match e with
  | None => Throw (WhereUndefined Cemail)
  | Some e => Ret (find (fun u => String.eqb (email u) e) table)
  end.

End UserModel.

(* ===================================================================== *)
(** ** Express: requests, responses and the handler monad *)
(* ===================================================================== *)

(** The JSON values the routes send. *)
#[warnings="-register-all"]
Inductive Json : Type :=
| JStr (s : string)
| JDate (ms : Z)
| JObj (fields : list (string * Json)).

Definition json_field (k : string) (j : Json) : option Json :=
  match j with
  | JObj fields =>
      match find (fun kv => String.eqb (fst kv) k) fields with
      | Some kv => Some (snd kv)
      | None => None
      end
  | _ => None
  end.

Definition json_keys (j : Json) : list string :=
  match j with
  | JObj fields => map fst fields
  | _ => []
  end.

Record Response : Type := mkResponse {
  status : Z;
  json : Json
}.

(** [req.body] of the two POST routes after [express.json()], for the
    bodies the front ends send: each field is a string, and a field that
    the client left out reads as [undefined].  A body whose fields hold
    other JSON values (a number, [null], an array, an object) is not an
    input of this model. *)
Record Body : Type := mkBody {
  b_username : option string;
  b_email : option string;
  b_password : option string
}.

(** What a handler reads from outside the request: [Date.now()], the value
    of [uuidv4()] and the value of [bcryptjs.genSaltSync(10)]. *)
Record Env : Type := mkEnv {
  now_ms : Z;
  uuid : string;
  salt : string
}.

(** The state a request runs in.  [users] is the table; [response] is what
    went out on the wire (at most one per request); [req_user] is
    [req.user]; [console] collects [console.error]; [next_calls] counts the
    calls of [next()], that is the invocations of the downstream handler;
    [rejections] collects what an [async] handler threw after it was
    started. *)
Record St : Type := mkSt {
  users : list User;
  response : option Response;
  req_user : option Claims;
  console : list Exn;
  next_calls : nat;
  rejections : list Exn
}.

(** A request arriving on the table [t]. *)
Definition fresh (t : list User) : St := mkSt t None None [] 0 [].

Definition M (A : Type) : Type := St -> St * Outcome A.

Definition ret {A} (a : A) : M A := fun st => (st, Ret a).

Definition throw {A} (e : Exn) : M A := fun st => (st, Throw e).

Definition bind {A B} (m : M A) (k : A -> M B) : M B :=
  fun st =>
    match m st with
    | (st', Ret a) => k a st'
    | (st', Throw e) => (st', Throw e)
    end.

(** [try { m } catch (error) { h(error) }]: what [m] did to the state
    before it threw stays done. *)
Definition try_catch {A} (m : M A) (h : Exn -> M A) : M A :=
  fun st =>
    match m st with
    | (st', Ret a) => (st', Ret a)
    | (st', Throw e) => h e st'
    end.

Definition lift {A} (o : Outcome A) : M A := fun st => (st, o).

Declare Scope js_scope.
Delimit Scope js_scope with js.
Notation "x <- c1 ;; c2" := (bind c1 (fun x => c2))
  (at level 61, c1 at next level, right associativity) : js_scope.
Notation "c1 ;; c2" := (bind c1 (fun _ => c2))
  (at level 61, right associativity) : js_scope.
Local Open Scope js_scope.

Definition message (m : string) : Json := JObj [("message", JStr m)].

(** [res.status(code).json(body)]: the first call sends the response; a
    later call on the same request finds the headers sent and throws. *)
Definition res_json (code : Z) (body : Json) : M unit :=
  fun st =>
    match response st with
    | Some _ => (st, Throw ERR_HTTP_HEADERS_SENT)
    | None =>
        (mkSt (users st) (Some (mkResponse code body)) (req_user st)
              (console st) (next_calls st) (rejections st), Ret tt)
    end.

(** [console.error(error)]. *)
Definition console_error (e : Exn) : M unit :=
  fun st =>
    (mkSt (users st) (response st) (req_user st)
          (console st ++ [e])%list (next_calls st) (rejections st), Ret tt).

(** [req.user = c]. *)
Definition set_req_user (c : Claims) : M unit :=
  fun st =>
    (mkSt (users st) (response st) (Some c)
          (console st) (next_calls st) (rejections st), Ret tt).

Definition get_req_user : M (option Claims) := fun st => (st, Ret (req_user st)).

(** [next()] towards an [async] handler: the handler is started; what it
    throws becomes a rejected promise and does not come back to the caller. *)
Definition call_next (handler : M unit) : M unit :=
  fun st =>
    let st1 := mkSt (users st) (response st) (req_user st)
                    (console st) (S (next_calls st)) (rejections st) in
    match handler st1 with
    | (st2, Ret _) => (st2, Ret tt)
    | (st2, Throw e) =>
        (mkSt (users st2) (response st2) (req_user st2)
              (console st2) (next_calls st2) (rejections st2 ++ [e])%list, Ret tt)
    end.

(** [await UserModel.findOne(...)] on the table of the state. *)
Definition findOne (e : option string) : M (option User) :=
  fun st => (st, UserModel.findOne e (users st)).

(** [await UserModel.create(...)] on the table of the state. *)
Definition create (a : Attrs) (now : Z) : M User :=
  fun st =>
    match UserModel.create a now (users st) with
    | Ret (u, t) =>
        (mkSt t (response st) (req_user st)
              (console st) (next_calls st) (rejections st), Ret u)
    | Throw e => (st, Throw e)
    end.

(* ===================================================================== *)
(** ** The routes and the middleware *)
(* ===================================================================== *)

(** A request: [req.headers.authorization] and [req.body]. *)
Record Request : Type := mkRequest {
  authorization : option string;
  body : Body
}.

Definition no_body : Body := mkBody None None None.

Section Backend.
Context {B : Bcrypt} {P : JwtPrims}.

(** [bcryptjs.hashSync(s, salt)]: a value that is not a string is refused. *)
Definition hashSync (s : option string) (salt : string) : M string :=
  match s with
  | Some p => ret (bcrypt_hash p salt)
  | None => throw IllegalArguments
  end.

(** [bcryptjs.compareSync(s, hash)]. *)
Definition compareSync (s : option string) (hash : string) : M bool :=
  match s with
  | Some p => ret (bcrypt_compare p hash)
  | None => throw IllegalArguments
  end.

(** [jwt.verify(token, secret)]: the claim, or the error thrown. *)
Definition jwt_verify (token : option string) (secret : string) (now : Z) : M Claims :=
  match Jwt.verify token secret now with
  | inr c => ret c
  | inl e => throw (JsonWebTokenError e)
  end.

Definition jwt_token_secret : string := "1234".

(** [{ expiresIn: "1h" }], in seconds. *)
Definition expiresIn_1h : Z := 3600.

(** The model instance as [res.json] serialises it. *)
Definition toJSON (u : User) : Json :=
  JObj [("id", JStr (id u)); ("username", JStr (username u));
        ("email", JStr (email u)); ("password", JStr (password u));
        ("updatedAt", JDate (updatedAt u)); ("createdAt", JDate (createdAt u))].

(** [router.post("/auth/signup", ...)]. *)
Definition signup (req : Request) (env : Env) : M unit :=
  try_catch
    (isUser <- findOne (b_email (body req)) ;;
     match isUser with
     | Some _ => res_json 400 (message "Users exists!")
     | None =>
         hash <- hashSync (b_password (body req)) (salt env) ;;
         user <- create (mkAttrs (uuid env) (b_username (body req))
                                 (b_email (body req)) (Some hash))
                        (now_ms env) ;;
         res_json 201 (JObj [("message", JStr "Users created!"); ("user", toJSON user)])
     end)
    (fun error =>
       console_error error ;;
       res_json 500 (message "Create user Error")).

(** [router.post("/auth/signin", ...)]. *)
Definition signin (req : Request) (env : Env) : M unit :=
  try_catch
    (let req_email := b_email (body req) in
     let req_password := b_password (body req) in
     isUser <- findOne req_email ;;
     match isUser with
     | None => res_json 400 (message "Users not exists!")
     | Some u =>
         ok <- compareSync req_password (password u) ;;
         if negb ok then res_json 400 (message "Incorrect password!")
         else
           let accessToken :=
             Jwt.sign (UserModel.or_empty req_email) jwt_token_secret expiresIn_1h (now_ms env) in
           res_json 200 (JObj [("message", JStr "Login ok!"); ("accessToken", JStr accessToken)])
     end)
    (fun error =>
       console_error error ;;
       res_json 500 (message "Login user Error")).

(** [accessToken.split(" ")[1]]; on [undefined] the method call throws. *)
Definition second_word (accessToken : option string) : M (option string) :=
  match accessToken with
  | None => throw TypeError
  | Some s => ret (JsString.index 1 (JsString.split " " s))
  end.

(** [!accessToken || !accessToken.startsWith("Bearer ")]. *)
Definition not_bearer (accessToken : option string) : bool :=
  negb (JsString.truthy accessToken)
  || match accessToken with
     | Some s => negb (JsString.startsWith "Bearer " s)
     | None => true
     end.

(** [authMiddleware(req, res, next)]: the first [if] writes the 403 and
    falls through to the [try]. *)
Definition authMiddleware (req : Request) (env : Env) (next : M unit) : M unit :=
  let accessToken := authorization req in
  (if not_bearer accessToken
   then res_json 403 (message "Incorrect Token! ")
   else ret tt) ;;
  try_catch
    (token <- second_word accessToken ;;
     user <- jwt_verify token jwt_token_secret (now_ms env) ;;
     set_req_user user ;;
     next)
    (fun _ => res_json 401 (message "Unauthorized!")).

(** The handler of [GET /protected]. *)
Definition protected : M unit :=
  user <- get_req_user ;;
  match user with
  | None => throw TypeError
  | Some c =>
      res_json 200
        (message ("Has entrado en ruta privada! y tu email es: " ++ c_email c))
  end.

(** [router.get("/protected", authMiddleware, async (req, res) => ...)]. *)
Definition get_protected (req : Request) (env : Env) : M unit :=
  authMiddleware req env (call_next protected).

(** The row a sign-up stores. *)
Definition new_user (name e p : string) (env : Env) : User :=
  mkUser (uuid env) name e (bcrypt_hash p (salt env)) (now_ms env) (now_ms env).

(** The state a successful sign-up ends in. *)
Definition created (t : list User) (u : User) : St :=
  mkSt (t ++ [u])%list
       (Some (mkResponse 201 (JObj [("message", JStr "Users created!"); ("user", toJSON u)])))
       None [] 0 [].


(** One request to the router. *)
Inductive Call : Type :=
| PostSignup (req : Request) (env : Env)
| PostSignin (req : Request) (env : Env)
| GetProtected (req : Request) (env : Env).

(** The state in which serving a call on the table [t] ends. *)
Definition serve (c : Call) (t : list User) : St :=
  match c with
  | PostSignup req env => fst (signup req env (fresh t))
  | PostSignin req env => fst (signin req env (fresh t))
  | GetProtected req env => fst (get_protected req env (fresh t))
  end.

(** The table after a run of calls, served one after the other. *)
Definition table_after (calls : list Call) (t : list User) : list User :=
  fold_left (fun t c => users (serve c t)) calls t.

(** A computation that leaves the table as it found it. *)
Definition keeps_table {A} (m : M A) : Prop :=
  forall st, users (fst (m st)) = users st.

(** The token of a 200 sign-in response. *)
Definition accessToken_of (r : option Response) : option string :=
  match r with
  | Some r =>
      match json_field "accessToken" (json r) with
      | Some (JStr t) => Some t
      | _ => None
      end
  | None => None
  end.

End Backend.

(* ===================================================================== *)
(** ** The front ends: cookie helpers, Context provider, Redux slice *)
(* ===================================================================== *)

(** What a cookie helper asks of the browser ([setCookie] with the value
    before [encodeURIComponent], [deleteCookie]). *)
Inductive CookieEffect : Type :=
| SetCookie (name value : string)
| DeleteCookie (name : string).

(** The [user] object of both front ends: [{ email }]. *)
Record UserInfo : Type := mkUserInfo { u_email : option string }.

(** What a route guard puts on the screen. *)
Inductive Rendered : Type :=
| Cargando          (* <div>Cargando...</div> *)
| NavigateLogin     (* <Navigate to="/login" replace /> *)
| Children.         (* the protected page *)

Module Cookies.
Section WithDecoder.
(** The browser's [decodeURIComponent]; [None] when it throws. *)
Variable decodeURIComponent : string -> option string.

(** What [String(v)] gives for a value that may be [undefined]. *)
Definition or_undefined (v : option string) : string :=
  match v with Some s => s | None => "undefined" end.

(** [getCookie(name)], on the text [document.cookie] reads as. *)
Definition getCookie (document_cookie name : string) : Outcome (option string) :=
  let value :=
    find (fun row => JsString.startsWith (name ++ "=") row)
         (JsString.split_str "; " document_cookie) in
  if JsString.truthy value then
    match decodeURIComponent
            (or_undefined (JsString.index 1 (JsString.split "=" (or_undefined value)))) with
    | Some v => Ret (Some v)
    | None => Throw URIError
    end
  else Ret None.
End WithDecoder.
End Cookies.

(** [frontend_react_context/src/context/UserContext.jsx]. *)
Module UserContext.

Record State : Type := mkState {
  user : option UserInfo;      (* { email } or null *)
  token : option string;
  loading : bool
}.

(** The three [useState] initial values. *)
Definition init (decodeURIComponent : string -> option string)
           (document_cookie : string) : Outcome State :=
  match Cookies.getCookie decodeURIComponent document_cookie "token" with
  | Ret t => Ret (mkState None t true)
  | Throw e => Throw e
  end.

(** The [useEffect] that follows every change of [token]. *)
Definition effect (st : State) : State * CookieEffect :=
  (mkState (user st) (token st) false,
   if JsString.truthy (token st)
   then SetCookie "token" (Cookies.or_undefined (token st))
   else DeleteCookie "token").

Definition login (accessToken userEmail : option string) (st : State) : State :=
  mkState (Some (mkUserInfo userEmail)) accessToken (loading st).

Definition logout (st : State) : State := mkState None None (loading st).

(** [const isAuthenticated = !!token]. *)
Definition isAuthenticated (st : State) : bool := JsString.truthy (token st).

(** The operations a consumer of the context can perform. *)
Inductive Op : Type :=
| Login (accessToken userEmail : option string)
| Logout
| Effect.

Definition step (st : State) (o : Op) : State :=
  match o with
  | Login t e => login t e st
  | Logout => logout st
  | Effect => fst (effect st)
  end.

Definition run (st : State) (ops : list Op) : State := fold_left step ops st.

End UserContext.

(** The [auth] slice of the Redux front end and its route guard. *)
Module AuthSlice.

Record State : Type := mkState {
  user : option UserInfo;      (* { email } or null *)
  token : option string;
  loading : bool;
  error : option string;
  isAuthenticated : bool
}.

(** [initialState]; [getCookie('token')] is read twice. *)
Definition initialState (decodeURIComponent : string -> option string)
           (document_cookie : string) : Outcome State :=
  match Cookies.getCookie decodeURIComponent document_cookie "token" with
  | Ret t =>
      match Cookies.getCookie decodeURIComponent document_cookie "token" with
      | Ret t' => Ret (mkState None t false None (JsString.truthy t'))
      | Throw e => Throw e
      end
  | Throw e => Throw e
  end.

(** [action.payload] of [loginSuccess]. *)
Record Credentials : Type := mkCredentials {
  p_token : option string;
  p_email : option string
}.

Inductive Action : Type :=
| loginStart
| loginSuccess (payload : Credentials)
| loginFailure (payload : option string)
| logout
| clearError
| setLoading (payload : bool).

(** The reducers of [createSlice], with the cookie calls they make. *)
Definition reducer (st : State) (a : Action) : State * list CookieEffect :=
  match a with
  | loginStart =>
      (mkState (user st) (token st) true None (isAuthenticated st), [])
  | loginSuccess payload =>
      (mkState (Some (mkUserInfo (p_email payload))) (p_token payload) false None true,
       [SetCookie "token" (Cookies.or_undefined (p_token payload))])
  | loginFailure payload =>
      (mkState None None false payload false, [])
  | logout =>
      (mkState None None false None false, [DeleteCookie "token"])
  | clearError =>
      (mkState (user st) (token st) (loading st) None (isAuthenticated st), [])
  | setLoading payload =>
      (mkState (user st) (token st) payload (error st) (isAuthenticated st), [])
  end.

(** The state after a run of dispatched actions. *)
Definition dispatch_all (st : State) (actions : list Action) : State :=
  fold_left (fun s a => fst (reducer s a)) actions st.

(** The store: [{ auth }]. *)
Record RootState : Type := mkRoot { auth : State }.

Definition selectIsAuthenticated (state : RootState) : bool := isAuthenticated (auth state).
Definition selectToken (state : RootState) : option string := token (auth state).
Definition selectLoading (state : RootState) : bool := loading (auth state).

(** [frontend_react_redux/src/components/ProtectedRoute.jsx]. *)
Definition ProtectedRoute (state : RootState) : Rendered :=
  if selectLoading state then Cargando
  else if negb (selectIsAuthenticated state) then NavigateLogin
  else Children.

(** Flag and token are in step. *)
Definition in_step (s : State) : Prop :=
  isAuthenticated s = JsString.truthy (token s).

(** Every [loginSuccess] of the run carries a non-empty token. *)
Definition tokens_present (actions : list Action) : Prop :=
  Forall (fun a => match a with
                   | loginSuccess payload => JsString.truthy (p_token payload) = true
                   | _ => True
                   end) actions.

End AuthSlice.

(* ===================================================================== *)
(** ** Executable stand-ins for the third-party primitives *)
(* ===================================================================== *)

(** Concrete functions that satisfy the assumptions made on [bcryptjs] and
    on the token primitives, so that whole requests can be run.  They are
    not the real algorithms: the tag is an injective rendering of key and
    message, the claim codec writes hexadecimal and decimal text. *)
Module Reference.

Definition hex_digit (n : N) : ascii :=
  ascii_of_N (if (n <? 10)%N then 48 + n else 87 + n)%N.

Definition hex_byte (c : ascii) : string :=
  let n := N_of_ascii c in
  String (hex_digit (n / 16)) (String (hex_digit (n mod 16)) EmptyString).

Fixpoint hex (s : string) : string :=
  match s with
  | EmptyString => EmptyString
  | String c s' => hex_byte c ++ hex s'
  end.

Definition unhex_digit (c : ascii) : option N :=
  let n := N_of_ascii c in
  if ((48 <=? n) && (n <=? 57))%N then Some (n - 48)%N
  else if ((97 <=? n) && (n <=? 102))%N then Some (n - 87)%N
  else None.

Fixpoint unhex (s : string) : option string :=
  match s with
  | EmptyString => Some EmptyString
  | String a (String b s') =>
      match unhex_digit a, unhex_digit b, unhex s' with
      | Some x, Some y, Some r => Some (String (ascii_of_N (16 * x + y)) r)
      | _, _, _ => None
      end
  | String _ EmptyString => None
  end.

(** The characters [hex] writes, and the characters [dec] writes. *)
Definition is_hex (c : ascii) : bool :=
  match unhex_digit c with Some _ => true | None => false end.

Definition is_dec (c : ascii) : bool :=
  let n := N_of_ascii c in ((48 <=? n) && (n <=? 57))%N || Ascii.eqb c "-".

Definition dec (z : Z) : string := NilEmpty.string_of_int (Z.to_int z).

Definition undec (s : string) : option Z :=
  match NilEmpty.int_of_string s with
  | Some d => Some (Z.of_int d)
  | None => None
  end.

Definition encode (c : Claims) : string :=
  hex (c_email c) ++ "_" ++ dec (c_iat c) ++ "_" ++ dec (c_exp c).

Definition decode (s : string) : option Claims :=
  match JsString.split "_" s with
  | [e; i; x] =>
      match unhex e, undec i, undec x with
      | Some e, Some i, Some x => Some (mkClaims e i x)
      | _, _, _ => None
      end
  | _ => None
  end.

Definition tag (key msg : string) : string := hex (key ++ ":" ++ msg).

Definition prims : JwtPrims :=
  {| hmac := tag; encode_claims := encode; decode_claims := decode |}.

(** The same codec under a signature that is one text for every key and
    every signing input. *)
Definition colliding_prims : JwtPrims :=
  {| hmac := fun _ _ => "AA"; encode_claims := encode; decode_claims := decode |}.

Definition bcrypt : Bcrypt :=
  {| bcrypt_hash := fun p salt => hex p ++ "$" ++ salt;
     bcrypt_compare := fun p h => String.prefix (hex p ++ "$") h |}.

(** A decoder for cookie text that holds no ['%']. *)
Definition plain_decode (s : string) : option string := Some s.

End Reference.

(** The scenario of the spec, section 8, on the stand-ins: alice signs
    up, signs in a minute later, and presents her token. *)
Module Scenario.

#[local] Existing Instance Reference.prims.
#[local] Existing Instance Reference.bcrypt.

Definition env_signup : Env :=
  mkEnv 1700000000000 "7c9e6679-7425-40de-944b-e07fc1f90ae7" "N9qo8uLOickgx2ZMRZoMye".

Definition env_signin : Env :=
  mkEnv 1700000060000 "16fd2706-8baf-433b-82eb-8c7fada847da" "KIXQJ7lCyP1sVrT5cU0oAe".

(** Two hours after the sign-in. *)
Definition env_late : Env :=
  mkEnv 1700007260000 "6ba7b810-9dad-11d1-80b4-00c04fd430c8" "u1dQnF4pYh3WkMvcXb2L9e".

Definition alice_signup : Request :=
  mkRequest None (mkBody (Some "alice") (Some "alice@x.com") (Some "secret123")).

Definition alice_signin : Request :=
  mkRequest None (mkBody None (Some "alice@x.com") (Some "secret123")).

Definition alice : User := new_user "alice" "alice@x.com" "secret123" env_signup.

Definition table : list User := [alice].

Definition token : string :=
  Jwt.sign "alice@x.com" jwt_token_secret expiresIn_1h (now_ms env_signin).

(** A second sign-up with alice's email and no password. *)
Definition mallory_signup : Request :=
  mkRequest None (mkBody (Some "mallory") (Some "alice@x.com") None).

(** A sign-up with an unused email and no password. *)
Definition bob_signup : Request :=
  mkRequest None (mkBody (Some "bob") (Some "bob@x.com") None).

Definition logged_out : AuthSlice.State := AuthSlice.mkState None None false None false.

End Scenario.

(* ===================================================================== *)
(** ** Further vocabulary for the routes *)
(* ===================================================================== *)

Section RouteVocabulary.
Context {P : JwtPrims}.

(** What [jwt.verify] makes of the second word of the header. *)
Definition verified (a : option string) (now : Z) : option Claims :=
  match a with
  | None => None
  | Some s =>
      match Jwt.verify (JsString.index 1 (JsString.split " " s)) jwt_token_secret now with
      | inr c => Some c
      | inl _ => None
      end
  end.

End RouteVocabulary.

(* ===================================================================== *)
(** ** The front ends: cookie text, the API service and the pages *)
(* ===================================================================== *)

(** [document.cookie] as the browser renders a list of cookies: the
    name=value pairs joined by "; ". *)
Definition document_cookie (jar : list (string * string)) : string :=
  String.concat "; " (map (fun nv => fst nv ++ "=" ++ snd nv) jar).

(** A cookie name or value that the rendering keeps apart from its
    neighbours: it holds neither [';'] nor ['=']. *)
Definition plain (s : string) : bool :=
  negb (JsString.mem ";" s) && negb (JsString.mem "=" s).

(** The value of the first cookie called [name]. *)
Definition lookup (name : string) (jar : list (string * string)) : option string :=
  match find (fun nv => String.eqb (fst nv) name) jar with
  | Some nv => Some (snd nv)
  | None => None
  end.

Module CookieWrites.
Section WithEncoder.
(** The browser's [encodeURIComponent]. *)
Variable encodeURIComponent : string -> string.

(** The text [setCookie(name, value)] assigns to [document.cookie];
    [expires] is the UTC rendering of the expiry date. *)
Definition setCookie (name value expires : string) : string :=
  name ++ "=" ++ encodeURIComponent value ++ "; expires=" ++ expires
       ++ "; path=/; SameSite=Strict".

(** The text [deleteCookie(name)] assigns to [document.cookie]. *)
Definition deleteCookie (name : string) : string :=
  name ++ "=; expires=Thu, 01 Jan 1970 00:00:00 GMT; path=/".

End WithEncoder.

(** The name=value pair of an assignment to [document.cookie]: the text
    before the first "; ". *)
Definition pair_of (assignment : string) : string :=
  hd "" (JsString.split_str "; " assignment).

End CookieWrites.

(** The value [response.json()] resolves to, as the front ends read it:
    [null], or a value on which [.message] and [.accessToken] each read a
    string or [undefined] (an object; a number, a string or an array read
    [undefined] on both). *)
Inductive JsonBody : Type :=
| JsonNull
| JsonObject (message accessToken : option string).

(** What [fetch] resolves to: the status, and the body; [None] when the
    body is not JSON text (an empty body, as on a 204, or HTML), so that
    [response.json()] rejects. *)
Record Reply : Type := mkReply {
  r_status : Z;
  r_body : option JsonBody
}.

(** [data.message] and [data.accessToken]: reading a property of [null]
    throws. *)
Definition data_message (data : JsonBody) : Outcome (option string) :=
  match data with
  | JsonNull => Throw TypeError
  | JsonObject m _ => Ret m
  end.

Definition data_accessToken (data : JsonBody) : Outcome (option string) :=
  match data with
  | JsonNull => Throw TypeError
  | JsonObject _ a => Ret a
  end.

Definition json_string (j : option Json) : option string :=
  match j with
  | Some (JStr s) => Some s
  | _ => None
  end.

(** What the client receives when the router sends [r]: [res.json]
    always writes a JSON body. *)
Definition reply_of (r : Response) : Reply :=
  mkReply (status r)
          (Some (JsonObject (json_string (json_field "message" (json r)))
                            (json_string (json_field "accessToken" (json r))))).

(** [v || d] on a string or [undefined]. *)
Definition or_else (v : option string) (d : string) : string :=
  if JsString.truthy v then Cookies.or_undefined v else d.

(** [services/api.js]. *)
Module Api.

Record Headers : Type := mkHeaders {
  content_type : string;
  h_authorization : option string
}.

(** The three URLs under [BASE_URL]. *)
Inductive Endpoint : Type :=
| AuthSignup       (* POST /auth/signup *)
| AuthSignin       (* POST /auth/signin *)
| Protected.       (* GET /protected *)

Record FetchCall : Type := mkFetch {
  endpoint : Endpoint;
  headers : Headers;
  payload : Body
}.

(** [fetch]: the reply of the server, [None] when the promise rejects. *)
Definition Network : Type := FetchCall -> option Reply.

(** What a call of the service can throw: the error [handleResponse]
    builds, with its message and its [response = { data, status }], or
    what [getCookie], [fetch], [response.json()] or a property access
    threw. *)
Inductive ApiError : Type :=
| HttpError (msg : string) (data : JsonBody) (status : Z)
| Rejected (e : Exn).

(** [response.ok]. *)
Definition response_ok (r : Reply) : bool :=
  (200 <=? r_status r) && (r_status r <=? 299).

(** [handleResponse(response)]: the body is parsed first, whatever the
    status; the value returned is the [data] of [{ data }]. *)
Definition handleResponse (r : Reply) : ApiError + JsonBody :=
  match r_body r with
  | None => inl (Rejected SyntaxError)
  | Some data =>
      if response_ok r then inr data
      else
        match data_message data with
        | Ret m => inl (HttpError (or_else m "Error en la petición") data (r_status r))
        | Throw e => inl (Rejected e)
        end
  end.

(** [err.response?.data?.message]. *)
Definition error_message (err : ApiError) : option string :=
  match err with
  | HttpError _ (JsonObject m _) _ => m
  | HttpError _ JsonNull _ => None
  | Rejected _ => None
  end.

Section WithBrowser.
Variable decodeURIComponent : string -> option string.
Variable net : Network.
Variable cookie : string.      (* what [document.cookie] reads as *)

(** [getHeaders()]. *)
Definition getHeaders : Outcome Headers :=
  match Cookies.getCookie decodeURIComponent cookie "token" with
  | Ret token =>
      Ret (mkHeaders "application/json"
             (if JsString.truthy token
              then Some ("Bearer " ++ Cookies.or_undefined token)
              else None))
  | Throw e => Throw e
  end.

(** The body shared by the three methods of [authService]. *)
Definition call (ep : Endpoint) (b : Body) : ApiError + JsonBody :=
  match getHeaders with
  | Throw e => inl (Rejected e)
  | Ret h =>
      match net (mkFetch ep h b) with
      | None => inl (Rejected TypeError)
      | Some r => handleResponse r
      end
  end.

(** [authService.signup(username, email, password)]. *)
Definition signup (username email password : string) : ApiError + JsonBody :=
  call AuthSignup (mkBody (Some username) (Some email) (Some password)).

(** [authService.signin(email, password)]. *)
Definition signin (email password : string) : ApiError + JsonBody :=
  call AuthSignin (mkBody None (Some email) (Some password)).

(** [authService.getProtected()]. *)
Definition getProtected : ApiError + JsonBody := call Protected no_body.

End WithBrowser.
End Api.

(** [pages/Login.jsx] of the Redux front end. *)
Module LoginPage.
Section WithBrowser.
Variable decodeURIComponent : string -> option string.
Variable net : Api.Network.
Variable cookie : string.

(** [handleSubmit]: the state of the slice after the dispatches, the
    cookie calls made, and where [navigate] went. *)
Definition handleSubmit (email password : string) (st : AuthSlice.State)
  : AuthSlice.State * list CookieEffect * option string :=
  let (s1, c1) := AuthSlice.reducer st AuthSlice.loginStart in
  let failed (err : Api.ApiError) : AuthSlice.State * list CookieEffect * option string :=
    let (s2, c2) :=
      AuthSlice.reducer s1
        (AuthSlice.loginFailure
           (Some (or_else (Api.error_message err) "Error al iniciar sesión"))) in
    (s2, (c1 ++ c2)%list, None) in
  match Api.signin decodeURIComponent net cookie email password with
  | inr data =>
      match data_accessToken data with
      | Ret accessToken =>
          let (s2, c2) :=
            AuthSlice.reducer s1
              (AuthSlice.loginSuccess
                 (AuthSlice.mkCredentials accessToken (Some email))) in
          (s2, (c1 ++ c2)%list, Some "/dashboard")
      | Throw e => failed (Api.Rejected e)
      end
  | inl err => failed err
  end.

End WithBrowser.
End LoginPage.

(** [fetchProtectedData] of [pages/Dashboard.jsx], the same in both front ends. *)
Module DashboardPage.

Record State : Type := mkState {
  protectedMessage : option string;
  loading : bool
}.

Section WithBrowser.
Variable decodeURIComponent : string -> option string.
Variable net : Api.Network.
Variable cookie : string.

(** [fetchProtectedData]: the local state when the promise has settled. *)
Definition fetchProtectedData : State :=
  match Api.getProtected decodeURIComponent net cookie with
  | inr data =>
      match data_message data with
      | Ret m => mkState m false
      | Throw _ => mkState (Some "Error al obtener datos protegidos") false
      end
  | inl _ => mkState (Some "Error al obtener datos protegidos") false
  end.

End WithBrowser.

End DashboardPage.

(** [pages/Register.jsx] of the Redux front end. *)
Module RegisterPage.

Record State : Type := mkState {
  error : string;
  loading : bool
}.

Section WithBrowser.
Variable decodeURIComponent : string -> option string.
Variable net : Api.Network.
Variable cookie : string.

(** [handleSubmit]: the local state when the promise has settled, and
    where [navigate] went. *)
Definition handleSubmit (username email password : string) : State * option string :=
  match Api.signup decodeURIComponent net cookie username email password with
  | inr _ => (mkState "" false, Some "/login")
  | inl err => (mkState (or_else (Api.error_message err) "Error al registrarse") false, None)
  end.

End WithBrowser.
End RegisterPage.

(** The network when the server is the router of this repository,
    holding the table [t] and reading [env]. *)
Section Wire.
Context {B : Bcrypt} {P : JwtPrims}.

(** The request Express hands to the route: the Authorization header, and
    the JSON body as [express.json()] parsed it. *)
Definition request_of (c : Api.FetchCall) : Request :=
  mkRequest (Api.h_authorization (Api.headers c)) (Api.payload c).

Definition call_of (c : Api.FetchCall) (env : Env) : Call :=
  match Api.endpoint c with
  | Api.AuthSignup => PostSignup (request_of c) env
  | Api.AuthSignin => PostSignin (request_of c) env
  | Api.Protected => GetProtected (request_of c) env
  end.

Definition router (env : Env) (t : list User) : Api.Network :=
  fun c => option_map reply_of (response (serve (call_of c env) t)).

End Wire.

(** The text of a cookie value up to its first ['=']. *)
Definition upto_equals (v : string) : string := hd "" (JsString.split "=" v).

(** A list of cookies the rendering keeps apart: plain names, and values
    without [';']. *)
Definition well_formed_jar (jar : list (string * string)) : Prop :=
  Forall (fun nv => plain (fst nv) = true /\ JsString.mem ";" (snd nv) = false) jar.

(** The state of the slice after a login that went through, and after one
    that did not. *)
Definition logged_in (email : string) (token : option string) : AuthSlice.State :=
  AuthSlice.mkState (Some (mkUserInfo (Some email))) token false None true.

Definition login_failed (msg : string) : AuthSlice.State :=
  AuthSlice.mkState None None false (Some msg) false.

Section CookieClaim.
Context {P : JwtPrims}.

(** The claim the router verifies from the token cookie of a browser, as
    [getHeaders] sends it: none without a cookie, with an empty one, or
    with a token that does not verify. *)
Definition bearer_claim (decodeURIComponent : string -> option string)
           (cookie : string) (now : Z) : option Claims :=
  match Cookies.getCookie decodeURIComponent cookie "token" with
  | Ret token =>
      if JsString.truthy token
      then verified (Some ("Bearer " ++ Cookies.or_undefined token)) now
      else None
  | Throw _ => None
  end.

End CookieClaim.


(** In the slice, a user is held only while the flag is on. *)
Definition user_flagged (s : AuthSlice.State) : Prop :=
  AuthSlice.user s = None \/ AuthSlice.isAuthenticated s = true.

(** Unfold a handler down to the table operations. *)
Ltac run_handler :=
  unfold signup, signin, try_catch, bind, ret, throw, findOne, create,
         hashSync, compareSync, res_json, console_error, fresh,
         UserModel.findOne; simpl.

(* ===================================================================== *)
(** * Properties *)
(* ===================================================================== *)

(** ** Facts about the string primitives *)

Module StringFacts.
Import JsString.

Lemma app_assoc (a b c : string) : (a ++ b) ++ c = a ++ (b ++ c).
Proof. induction a as [|x a IH]; simpl; [reflexivity | now rewrite IH]. Qed.

Lemma app_empty_r (a : string) : a ++ "" = a.
Proof. induction a as [|x a IH]; simpl; [reflexivity | now rewrite IH]. Qed.

Lemma prefix_app (a b : string) : String.prefix a (a ++ b) = true.
Proof.
  induction a as [|x a IH]; simpl.
  - now destruct b.
  - destruct (ascii_dec x x) as [_|ne]; [exact IH | now elim ne].
Qed.

Lemma prefix_app_inv (a s : string) :
  String.prefix a s = true -> exists b, s = a ++ b.
Proof.
  revert s. induction a as [|x a IH]; intros s H.
  - now exists s.
  - destruct s as [|y s]; simpl in H; [discriminate|].
    destruct (ascii_dec x y) as [->|_]; [|discriminate].
    destruct (IH s H) as [b ->]. now exists b.
Qed.

Lemma mem_app (c : ascii) (a b : string) : mem c (a ++ b) = mem c a || mem c b.
Proof.
  induction a as [|x a IH]; simpl; [reflexivity|].
  now rewrite IH, orb_assoc.
Qed.

Lemma all_chars_app (p : ascii -> bool) (a b : string) :
  all_chars p (a ++ b) = all_chars p a && all_chars p b.
Proof.
  induction a as [|x a IH]; simpl; [reflexivity|].
  now rewrite IH, andb_assoc.
Qed.

Lemma all_chars_not_mem (p : ascii -> bool) (c : ascii) (s : string) :
  all_chars p s = true -> p c = false -> mem c s = false.
Proof.
  intros Hs Hc. induction s as [|x s IH]; simpl in *; [reflexivity|].
  apply andb_true_iff in Hs as [Hx Hs].
  rewrite (IH Hs), orb_false_r.
  destruct (Ascii.eqb_spec x c) as [->|_]; [congruence | reflexivity].
Qed.

Lemma mem_not_all_chars (p : ascii -> bool) (c : ascii) (s : string) :
  mem c s = true -> p c = false -> all_chars p s = false.
Proof.
  intros Hm Hc. destruct (all_chars p s) eqn:E; [|reflexivity].
  now rewrite (all_chars_not_mem _ _ _ E Hc) in Hm.
Qed.

Lemma split_nonempty (sep : ascii) (s : string) : split sep s <> [].
Proof.
  induction s as [|x s IH]; simpl; [discriminate|].
  destruct (Ascii.eqb x sep); [discriminate|].
  destruct (split sep s); [now elim IH | discriminate].
Qed.

(** Text without the separator is one piece. *)
Lemma split_no_sep (sep : ascii) (s : string) :
  mem sep s = false -> split sep s = [s].
Proof.
  induction s as [|x s IH]; simpl; [reflexivity|].
  intros H. apply orb_false_iff in H as [Hx Hs].
  rewrite Hx, (IH Hs). reflexivity.
Qed.

(** The first separator ends the first piece. *)
Lemma split_app_sep (sep : ascii) (a b : string) :
  mem sep a = false -> split sep (a ++ String sep b) = a :: split sep b.
Proof.
  induction a as [|x a IH]; simpl.
  - intros _. now rewrite Ascii.eqb_refl.
  - intros H. apply orb_false_iff in H as [Hx Ha].
    rewrite Hx, (IH Ha). reflexivity.
Qed.

Lemma split3 (sep : ascii) (h p s : string) :
  mem sep h = false -> mem sep p = false -> mem sep s = false ->
  split sep (h ++ String sep (p ++ String sep s)) = [h; p; s].
Proof.
  intros Hh Hp Hs.
  now rewrite (split_app_sep _ _ _ Hh), (split_app_sep _ _ _ Hp), (split_no_sep _ _ Hs).
Qed.

(** An overwrite inside the text cuts it in two around the position. *)
Lemma replace_at_cut (i : nat) (c d : ascii) (s : string) :
  String.get i s = Some d ->
  exists pre post, s = pre ++ String d post
                   /\ replace_at i c s = pre ++ String c post.
Proof.
  revert i. induction s as [|x s IH]; intros i H; [now destruct i|].
  destruct i as [|i]; simpl in H.
  - injection H as ->. now exists "", s.
  - destruct (IH i H) as (pre & post & E1 & E2).
    exists (String x pre), post. simpl. now rewrite <- E1, E2.
Qed.

Lemma app_cancel_l (a b c : string) : a ++ b = a ++ c -> b = c.
Proof. induction a as [|x a IH]; simpl; intros H; [exact H | injection H as H; auto]. Qed.

Lemma eqb_empty_app (a : string) (c : ascii) (b : string) :
  String.eqb (a ++ String c b) "" = false.
Proof. now destruct a. Qed.

End StringFacts.

(** ** Facts about tokens *)

Module JwtFacts.
Import JsString StringFacts Jwt.

Lemma segment_all_chars (s : string) :
  segment_ok s = true -> all_chars is_b64url s = true.
Proof. unfold segment_ok. intros H. now apply andb_true_iff in H. Qed.

Lemma segment_no_dot (s : string) : segment_ok s = true -> mem "." s = false.
Proof.
  intros H. apply all_chars_not_mem with (p := is_b64url);
    [now apply segment_all_chars | reflexivity].
Qed.

Lemma segment_no_space (s : string) : segment_ok s = true -> mem " " s = false.
Proof.
  intros H. apply all_chars_not_mem with (p := is_b64url);
    [now apply segment_all_chars | reflexivity].
Qed.

Lemma header_ok : segment_ok header_segment = true.
Proof. reflexivity. Qed.

Section WithLaws.
Context {P : JwtPrims}.
Hypothesis L : Laws P.

Lemma payload_ok email ttl now : segment_ok (payload_of email ttl now) = true.
Proof. apply (encode_segment L). Qed.

Lemma signature_ok email secret ttl now :
  segment_ok (signature_of email secret ttl now) = true.
Proof. apply (hmac_segment L). Qed.

(** The token [sign] returns, segment by segment. *)
Lemma sign_segments email secret ttl now :
  sign email secret ttl now =
  header_segment ++ "." ++ payload_of email ttl now
                 ++ "." ++ signature_of email secret ttl now.
Proof.
  unfold sign, signature_of, payload_of, signing_input.
  now rewrite !app_assoc.
Qed.

(** A well-formed token goes through the first step of [verify]. *)
Lemma verify_segments h p s secret now :
  segment_ok h = true -> segment_ok p = true -> segment_ok s = true ->
  verify (Some (h ++ "." ++ p ++ "." ++ s)) secret now =
  if String.eqb s (hmac secret (signing_input h p)) then
    match decode_claims p with
    | Some c => if seconds now >=? c_exp c then inl Expired else inr c
    | None => inl MalformedToken
    end
  else inl InvalidSignature.
Proof.
  intros Hh Hp Hs. unfold verify.
  change (h ++ "." ++ p ++ "." ++ s)
    with (h ++ String "." (p ++ String "." s)).
  rewrite split3 by now apply segment_no_dot.
  now rewrite Hh, Hp, Hs.
Qed.

(** What [verify] answers on a token it issued, at any later clock. *)
Lemma verify_sign email secret ttl now now' :
  verify (Some (sign email secret ttl now)) secret now' =
  if seconds now' >=? seconds now + ttl then inl Expired
  else inr (mkClaims email (seconds now) (seconds now + ttl)).
Proof.
  rewrite sign_segments.
  rewrite verify_segments
    by (apply header_ok || apply payload_ok || apply signature_ok).
  unfold signature_of at 1. rewrite String.eqb_refl.
  unfold payload_of. now rewrite (decode_encode L).
Qed.

Lemma sign_no_space email secret ttl now :
  mem " " (sign email secret ttl now) = false.
Proof.
  rewrite sign_segments, !mem_app.
  rewrite (segment_no_space _ header_ok).
  rewrite (segment_no_space _ (payload_ok email ttl now)).
  rewrite (segment_no_space _ (signature_ok email secret ttl now)).
  reflexivity.
Qed.

End WithLaws.
End JwtFacts.

(** ** The stand-ins meet the assumptions *)

Module ReferenceFacts.
Import JsString StringFacts Jwt Reference.

Lemma all_chars_impl (p q : ascii -> bool) (s : string) :
  (forall c, p c = true -> q c = true) ->
  all_chars p s = true -> all_chars q s = true.
Proof.
  intros Hpq. induction s as [|x s IH]; simpl; [reflexivity|].
  intros H. apply andb_true_iff in H as [Hx Hs].
  now rewrite (Hpq _ Hx), (IH Hs).
Qed.

Lemma is_hex_b64url c : is_hex c = true -> is_b64url c = true.
Proof. destruct c as [[] [] [] [] [] [] [] []]; vm_compute; congruence. Qed.

Lemma is_dec_b64url c : is_dec c = true -> is_b64url c = true.
Proof. destruct c as [[] [] [] [] [] [] [] []]; vm_compute; congruence. Qed.

Lemma hex_byte_spec c :
  exists a b, hex_byte c = String a (String b "")
              /\ unhex_digit a = Some (N_of_ascii c / 16)%N
              /\ unhex_digit b = Some (N_of_ascii c mod 16)%N.
Proof.
  exists (hex_digit (N_of_ascii c / 16)), (hex_digit (N_of_ascii c mod 16)).
  split; [reflexivity|].
  destruct c as [[] [] [] [] [] [] [] []]; vm_compute; split; reflexivity.
Qed.

Lemma unhex_hex s : unhex (hex s) = Some s.
Proof.
  induction s as [|c s IH]; [reflexivity|].
  destruct (hex_byte_spec c) as (a & b & E & Ha & Hb).
  change (hex (String c s)) with (hex_byte c ++ hex s).
  rewrite E. cbn [append unhex]. rewrite Ha, Hb, IH.
  rewrite <- N.div_mod' by discriminate.
  now rewrite ascii_N_embedding.
Qed.

Lemma hex_chars s : all_chars is_hex (hex s) = true.
Proof.
  induction s as [|c s IH]; [reflexivity|].
  destruct (hex_byte_spec c) as (a & b & E & Ha & Hb).
  change (hex (String c s)) with (hex_byte c ++ hex s).
  rewrite E. simpl. unfold is_hex at 1 2. now rewrite Ha, Hb, IH.
Qed.

Lemma hex_nonempty a c b : String.eqb (hex (a ++ String c b)) "" = false.
Proof.
  destruct a as [|x a]; cbn [append hex];
    match goal with |- context [hex_byte ?y] =>
      destruct (hex_byte_spec y) as (u & v & E & _); now rewrite E end.
Qed.

Lemma uint_chars d : all_chars is_dec (NilEmpty.string_of_uint d) = true.
Proof. induction d; simpl; auto. Qed.

Lemma dec_chars z : all_chars is_dec (dec z) = true.
Proof. unfold dec. destruct (Z.to_int z); simpl; apply uint_chars. Qed.

Lemma undec_dec z : undec (dec z) = Some z.
Proof. unfold undec, dec. now rewrite NilEmpty.isi, DecimalZ.of_to. Qed.

Lemma hex_no_underscore s : mem "_" (hex s) = false.
Proof. apply all_chars_not_mem with (p := is_hex); [apply hex_chars | reflexivity]. Qed.

Lemma dec_no_underscore z : mem "_" (dec z) = false.
Proof. apply all_chars_not_mem with (p := is_dec); [apply dec_chars | reflexivity]. Qed.

Lemma decode_encode c : decode (encode c) = Some c.
Proof.
  destruct c as [e i x]. unfold decode, encode. simpl c_email; simpl c_iat; simpl c_exp.
  change (hex e ++ "_" ++ dec i ++ "_" ++ dec x)
    with (hex e ++ String "_" (dec i ++ String "_" (dec x))).
  rewrite split3 by (apply hex_no_underscore || apply dec_no_underscore).
  now rewrite unhex_hex, !undec_dec.
Qed.

Lemma encode_segment c : segment_ok (encode c) = true.
Proof.
  unfold segment_ok, encode.
  change (hex (c_email c) ++ "_" ++ dec (c_iat c) ++ "_" ++ dec (c_exp c))
    with (hex (c_email c) ++ String "_" (dec (c_iat c) ++ String "_" (dec (c_exp c)))).
  rewrite eqb_empty_app. simpl negb. rewrite andb_true_l.
  rewrite all_chars_app. simpl.
  rewrite (all_chars_impl _ _ _ is_hex_b64url (hex_chars _)).
  rewrite all_chars_app. simpl.
  now rewrite !(all_chars_impl _ _ _ is_dec_b64url (dec_chars _)).
Qed.

Lemma tag_segment k m : segment_ok (tag k m) = true.
Proof.
  unfold segment_ok, tag.
  change (k ++ ":" ++ m) with (k ++ String ":" m).
  rewrite hex_nonempty. simpl.
  apply (all_chars_impl _ _ _ is_hex_b64url (hex_chars _)).
Qed.

Lemma prims_laws : Laws prims.
Proof.
  constructor; simpl.
  - apply tag_segment.
  - apply encode_segment.
  - apply decode_encode.
Qed.

Lemma colliding_prims_laws : Laws colliding_prims.
Proof.
  split.
  - intros k m. reflexivity.
  - apply encode_segment.
  - apply decode_encode.
Qed.




End ReferenceFacts.

(** ** Tampering with one character of a segment *)

Module TamperFacts.
Import JsString StringFacts Jwt JwtFacts.

(** Writing a base64url character into a segment leaves a segment, and a
    different one. *)
Lemma overwrite_b64url (i : nat) (c : ascii) (x : string) :
  segment_ok x = true -> changes_char i c x -> is_b64url c = true ->
  segment_ok (replace_at i c x) = true /\ replace_at i c x <> x.
Proof.
  intros Hx (d & Hd & Hdc) Hc.
  destruct (replace_at_cut i c d x Hd) as (pre & post & E1 & E2).
  rewrite E2. split.
  - apply segment_all_chars in Hx. rewrite E1, all_chars_app in Hx. simpl in Hx.
    apply andb_true_iff in Hx as [Hpre Hx]. apply andb_true_iff in Hx as [_ Hpost].
    unfold segment_ok. rewrite eqb_empty_app, all_chars_app. simpl.
    now rewrite Hpre, Hc, Hpost.
  - rewrite E1. intros E. apply app_cancel_l in E. congruence.
Qed.

(** Writing a dot into a segment cuts it into two dot-free pieces. *)
Lemma overwrite_dot (i : nat) (x : string) :
  segment_ok x = true -> changes_char i "." x ->
  exists pre post, replace_at i "." x = pre ++ String "." post
                   /\ mem "." pre = false /\ mem "." post = false.
Proof.
  intros Hx (d & Hd & _).
  destruct (replace_at_cut i "." d x Hd) as (pre & post & E1 & E2).
  exists pre, post. split; [exact E2|].
  apply segment_no_dot in Hx. rewrite E1, mem_app in Hx. simpl in Hx.
  apply orb_false_iff in Hx as [Hpre Hx]. apply orb_false_iff in Hx as [_ Hpost].
  now split.
Qed.

(** Writing any other character outside the alphabet leaves one piece
    that is no segment. *)
Lemma overwrite_foreign (i : nat) (c : ascii) (x : string) :
  segment_ok x = true -> changes_char i c x ->
  is_b64url c = false -> c <> "."%char ->
  mem "." (replace_at i c x) = false /\ segment_ok (replace_at i c x) = false.
Proof.
  intros Hx (d & Hd & _) Hc Hdot.
  destruct (replace_at_cut i c d x Hd) as (pre & post & E1 & E2).
  rewrite E2. apply segment_no_dot in Hx. rewrite E1, mem_app in Hx. simpl in Hx.
  apply orb_false_iff in Hx as [Hpre Hx]. apply orb_false_iff in Hx as [_ Hpost].
  split.
  - rewrite mem_app. simpl. rewrite Hpre, Hpost.
    now destruct (Ascii.eqb_spec c ".").
  - unfold segment_ok. rewrite eqb_empty_app. simpl.
    apply mem_not_all_chars with (c := c); [|exact Hc].
    rewrite mem_app. simpl. now rewrite Ascii.eqb_refl, orb_true_r.
Qed.

Section WithPrims.
Context {P : JwtPrims}.

(** Three dot-free pieces reach the segment test of [verify]. *)
Lemma verify_three h p s secret now :
  mem "." h = false -> mem "." p = false -> mem "." s = false ->
  verify (Some (h ++ "." ++ p ++ "." ++ s)) secret now =
  if segment_ok h && segment_ok p && segment_ok s then
    if String.eqb s (hmac secret (signing_input h p)) then
      match decode_claims p with
      | Some c => if seconds now >=? c_exp c then inl Expired else inr c
      | None => inl MalformedToken
      end
    else inl InvalidSignature
  else inl MalformedToken.
Proof.
  intros Hh Hp Hs. unfold verify.
  change (h ++ "." ++ p ++ "." ++ s) with (h ++ String "." (p ++ String "." s)).
  now rewrite split3.
Qed.

(** Four pieces or more are malformed. *)
Lemma verify_four a b c d secret now :
  mem "." a = false -> mem "." b = false -> mem "." c = false ->
  verify (Some (a ++ "." ++ b ++ "." ++ c ++ "." ++ d)) secret now
  = inl MalformedToken.
Proof.
  intros Ha Hb Hc. unfold verify.
  change (a ++ "." ++ b ++ "." ++ c ++ "." ++ d)
    with (a ++ String "." (b ++ String "." (c ++ String "." d))).
  rewrite !split_app_sep by assumption.
  pose proof (split_nonempty "." d) as Hd.
  destruct (split "." d); [now elim Hd | reflexivity].
Qed.

End WithPrims.
End TamperFacts.

(* ===================================================================== *)
(** * The token validator *)
(* ===================================================================== *)

(** C5.  A token issued with a positive time to live validates when it is
    checked at the clock of its issue, and at any clock whose second is
    before [expiresAt]; once the clock's second is at or past [expiresAt]
    the check fails with [Expired]. *)
Theorem validate_until_expiry {P : JwtPrims} (L : Jwt.Laws P)
    (email secret : string) (ttl now now' : Z) :
  0 < ttl ->
  let token := Jwt.sign email secret ttl now in
  let expiresAt := Jwt.seconds now + ttl in
  let claim := mkClaims email (Jwt.seconds now) expiresAt in
  Jwt.verify (Some token) secret now = inr claim
  /\ (Jwt.seconds now' < expiresAt ->
      Jwt.verify (Some token) secret now' = inr claim)
  /\ (expiresAt <= Jwt.seconds now' ->
      Jwt.verify (Some token) secret now' = inl Expired).
Proof.
  intros Httl token expiresAt claim. subst token expiresAt claim.
  repeat split; intros; rewrite (JwtFacts.verify_sign L).
  - destruct (Z.geb_spec (Jwt.seconds now) (Jwt.seconds now + ttl)); [lia | reflexivity].
  - destruct (Z.geb_spec (Jwt.seconds now') (Jwt.seconds now + ttl)); [lia | reflexivity].
  - destruct (Z.geb_spec (Jwt.seconds now') (Jwt.seconds now + ttl)); [reflexivity | lia].
Qed.

(** The route's [expiresIn: "1h"] is such a positive time to live. *)
Lemma expiresIn_1h_positive : 0 < expiresIn_1h.
Proof. reflexivity. Qed.

(** Two payloads under one header give two signing inputs. *)
Lemma signing_input_payload (h p p' : string) :
  Jwt.signing_input h p = Jwt.signing_input h p' -> p = p'.
Proof.
  unfold Jwt.signing_input. intros E.
  apply StringFacts.app_cancel_l in E. now injection E.
Qed.

(** What [verify] answers on a token of [sign] after one character of its
    payload or signature was overwritten with another one.  A change in
    the signature needs nothing of the primitive; a change in the payload
    is caught when the signature has no collision under the secret. *)
Lemma verify_tampered {P : JwtPrims} (L : Jwt.Laws P)
    (email secret : string) (ttl now now' : Z)
    (seg : Jwt.Segment) (i : nat) (c : ascii) :
  let h := Jwt.header_segment in
  let p := Jwt.payload_of email ttl now in
  let s := Jwt.signature_of email secret ttl now in
  Jwt.changes_char i c (Jwt.segment_text seg p s) ->
  (seg = Jwt.PayloadSegment -> Jwt.collision_free secret) ->
  Jwt.verify (Some (Jwt.tamper seg i c h p s)) secret now' =
  inl (if Jwt.is_b64url c then InvalidSignature else MalformedToken).
Proof.
  intros h p s Hch Hfree.
  assert (Hh : Jwt.segment_ok h = true) by apply JwtFacts.header_ok.
  assert (Hp : Jwt.segment_ok p = true) by apply (JwtFacts.payload_ok L).
  assert (Hs : Jwt.segment_ok s = true) by apply (JwtFacts.signature_ok L).
  pose proof (JwtFacts.segment_no_dot _ Hh) as Dh.
  pose proof (JwtFacts.segment_no_dot _ Hp) as Dp.
  pose proof (JwtFacts.segment_no_dot _ Hs) as Ds.
  destruct (Jwt.is_b64url c) eqn:Hc.
  - (* the altered token still has three segments *)
    destruct seg; simpl in Hch; unfold Jwt.tamper.
    + destruct (TamperFacts.overwrite_b64url i c p Hp Hch Hc) as [Hp' Hne].
      rewrite JwtFacts.verify_segments by assumption.
      destruct (String.eqb_spec s (hmac secret (Jwt.signing_input h (JsString.replace_at i c p))))
        as [E|_]; [|reflexivity].
      elim Hne. symmetry. apply (signing_input_payload h).
      now apply (Hfree eq_refl).
    + destruct (TamperFacts.overwrite_b64url i c s Hs Hch Hc) as [Hs' Hne].
      rewrite JwtFacts.verify_segments by assumption.
      destruct (String.eqb_spec (JsString.replace_at i c s)
                                (hmac secret (Jwt.signing_input h p))) as [E|_];
        [|reflexivity].
      now elim Hne.
  - destruct (Ascii.eqb_spec c ".") as [->|Hdot].
    + (* a dot: one segment more *)
      destruct seg; simpl in Hch; unfold Jwt.tamper.
      * destruct (TamperFacts.overwrite_dot i p Hp Hch) as (pre & post & E & Hpre & Hpost).
        rewrite E.
        replace (h ++ "." ++ (pre ++ String "." post) ++ "." ++ s)
          with (h ++ "." ++ pre ++ "." ++ post ++ "." ++ s)
          by (now rewrite (StringFacts.app_assoc pre)).
        now apply TamperFacts.verify_four.
      * destruct (TamperFacts.overwrite_dot i s Hs Hch) as (pre & post & E & Hpre & Hpost).
        rewrite E.
        change (h ++ "." ++ p ++ "." ++ pre ++ String "." post)
          with (h ++ "." ++ p ++ "." ++ pre ++ "." ++ post).
        now apply TamperFacts.verify_four.
    + (* a character no segment may hold *)
      destruct seg; simpl in Hch; unfold Jwt.tamper.
      * destruct (TamperFacts.overwrite_foreign i c p Hp Hch Hc Hdot) as [D' N'].
        rewrite TamperFacts.verify_three by assumption.
        now rewrite N', andb_false_r.
      * destruct (TamperFacts.overwrite_foreign i c s Hs Hch Hc Hdot) as [D' N'].
        rewrite TamperFacts.verify_three by assumption.
        now rewrite N', andb_false_r.
Qed.


(* ===================================================================== *)
(** * The table and the sign-up and sign-in routes *)
(* ===================================================================== *)

Module TableFacts.

(** A stored row with the email makes [findOne] return a row. *)
Lemma find_email_present (t : list User) (u : User) :
  In u t -> exists u', find (fun r => String.eqb (email r) (email u)) t = Some u'.
Proof.
  intros Hin.
  destruct (find (fun r => String.eqb (email r) (email u)) t) as [u'|] eqn:E.
  - now exists u'.
  - apply (find_none _ _ E) in Hin. now rewrite String.eqb_refl in Hin.
Qed.

(** No stored row with the email makes [findOne] return [null]. *)
Lemma find_email_absent (t : list User) (e : string) :
  (forall r, In r t -> email r <> e) ->
  find (fun r => String.eqb (email r) e) t = None.
Proof.
  intros H. induction t as [|r t IH]; [reflexivity|]. simpl.
  destruct (String.eqb_spec (email r) e) as [E|_].
  - now elim (H r (or_introl eq_refl)).
  - apply IH. intros r' Hr'. apply H. now right.
Qed.

Lemma find_email_absent_inv (t : list User) (e : string) :
  find (fun r => String.eqb (email r) e) t = None ->
  forall r, In r t -> email r <> e.
Proof.
  intros H r Hr. apply (find_none _ _ H) in Hr. now apply String.eqb_neq.
Qed.


(** The only key of the model is [id]. *)
Lemma unique_violation_spec (t : list User) (u : User) :
  UserModel.unique_violation t u =
  if existsb (fun r => String.eqb (id r) (id u)) t then Some Cid else None.
Proof.
  unfold UserModel.unique_violation. simpl.
  now destruct (existsb (fun r => String.eqb (id r) (id u)) t).
Qed.

Lemma id_fresh (t : list User) (i : string) :
  (forall r, In r t -> id r <> i) ->
  existsb (fun r => String.eqb (id r) i) t = false.
Proof.
  intros H. induction t as [|r t IH]; [reflexivity|]. simpl.
  destruct (String.eqb_spec (id r) i) as [E|_].
  - now elim (H r (or_introl eq_refl)).
  - apply IH. intros r' Hr'. apply H. now right.
Qed.

End TableFacts.

Section Routes.
Context {B : Bcrypt} {P : JwtPrims}.

(** A sign-up whose email a stored row has ends at the [findOne] test. *)
Lemma signup_stored_email (t : list User) (u : User) (req : Request) (env : Env) :
  In u t ->
  b_email (body req) = Some (email u) ->
  signup req env (fresh t) =
  (mkSt t (Some (mkResponse 400 (message "Users exists!"))) None [] 0 [], Ret tt).
Proof.
  intros Hin He. destruct (TableFacts.find_email_present t u Hin) as [u' Hu'].
  run_handler. rewrite He. simpl. now rewrite Hu'.
Qed.

(** C6.  When the table holds a row with the email of a sign-up request,
    the request is answered 400 "Users exists!" and the table is left as
    it was: no row is added and none is changed. *)
Theorem signup_existing_email (t : list User) (u : User) (req : Request) (env : Env) :
  In u t ->
  b_email (body req) = Some (email u) ->
  signup req env (fresh t) =
  (mkSt t (Some (mkResponse 400 (message "Users exists!"))) None [] 0 [], Ret tt).
Proof. exact (signup_stored_email t u req env). Qed.

(** C10 (amended).  A sign-up request without a password, whose email no
    stored row has, makes [hashSync] throw; the request is answered 500
    "Create user Error", the error is logged and no row is created. *)
Theorem signup_without_password (t : list User) (req : Request) (env : Env) (e : string) :
  b_password (body req) = None ->
  b_email (body req) = Some e ->
  (forall r, In r t -> email r <> e) ->
  hashSync (b_password (body req)) (salt env) (fresh t) = (fresh t, Throw IllegalArguments)
  /\ signup req env (fresh t) =
     (mkSt t (Some (mkResponse 500 (message "Create user Error"))) None
           [IllegalArguments] 0 [], Ret tt).
Proof.
  intros Hp He Habs. apply TableFacts.find_email_absent in Habs.
  split.
  - now rewrite Hp.
  - run_handler. rewrite He, Hp. simpl. now rewrite Habs.
Qed.

(** C2 (amended).  A sign-in with an email no stored row has is answered
    400 "Users not exists!"; a sign-in with a stored email and a password
    that does not match the stored hash is answered 400 "Incorrect
    password!".  The two answers share the status and differ in the
    message. *)
Theorem signin_failures (t : list User) (env1 env2 : Env)
    (e1 e2 : string) (p1 p2 : option string) (pw2 : string) (u : User) :
  (forall r, In r t -> email r <> e1) ->
  UserModel.findOne (Some e2) t = Ret (Some u) ->
  p2 = Some pw2 ->
  bcrypt_compare pw2 (password u) = false ->
  let r1 := response (fst (signin (mkRequest None (mkBody None (Some e1) p1)) env1 (fresh t))) in
  let r2 := response (fst (signin (mkRequest None (mkBody None (Some e2) p2)) env2 (fresh t))) in
  r1 = Some (mkResponse 400 (message "Users not exists!"))
  /\ r2 = Some (mkResponse 400 (message "Incorrect password!"))
  /\ option_map status r1 = option_map status r2
  /\ r1 <> r2.
Proof.
  intros Habs Hfind -> Hcmp r1 r2.
  apply TableFacts.find_email_absent in Habs.
  unfold UserModel.findOne in Hfind. injection Hfind as Hfind.
  assert (E1 : r1 = Some (mkResponse 400 (message "Users not exists!"))).
  { subst r1. run_handler. now rewrite Habs. }
  assert (E2 : r2 = Some (mkResponse 400 (message "Incorrect password!"))).
  { subst r2. run_handler. rewrite Hfind. simpl. now rewrite Hcmp. }
  rewrite E1, E2. repeat split; discriminate.
Qed.

End Routes.

Section SignupFacts.
Context {B : Bcrypt} {P : JwtPrims}.

(** A 201 tells everything about the request and the table: the three
    fields were present, no row had the email, no row had the new id. *)
Lemma signup_created_inv (t : list User) (req : Request) (env : Env) :
  option_map status (response (fst (signup req env (fresh t)))) = Some 201 ->
  exists name e p,
    body req = mkBody (Some name) (Some e) (Some p)
    /\ find (fun r => String.eqb (email r) e) t = None
    /\ existsb (fun r => String.eqb (id r) (uuid env)) t = false
    /\ signup req env (fresh t) = (created t (new_user name e p env), Ret tt).
Proof.
  destruct req as [auth [name e p]]. unfold created, new_user.
  run_handler.
  destruct e as [e|]; simpl; [|discriminate].
  destruct (find (fun r => String.eqb (email r) e) t) eqn:Hfind; simpl; [discriminate|].
  destruct p as [p|]; simpl; [|discriminate].
  unfold UserModel.create.
  destruct name as [name|]; simpl; [|discriminate].
  rewrite TableFacts.unique_violation_spec. simpl.
  destruct (existsb (fun r => String.eqb (id r) (uuid env)) t) eqn:Hid; simpl;
    [discriminate|].
  intros _. exists name, e, p. repeat split; assumption.
Qed.

(** The converse: such a request on such a table is answered 201. *)
Lemma signup_created (t : list User) (auth : option string) (name e p : string) (env : Env) :
  (forall r, In r t -> email r <> e) ->
  (forall r, In r t -> id r <> uuid env) ->
  signup (mkRequest auth (mkBody (Some name) (Some e) (Some p))) env (fresh t)
  = (created t (new_user name e p env), Ret tt).
Proof.
  intros He Hi. apply TableFacts.find_email_absent in He.
  apply TableFacts.id_fresh in Hi.
  unfold created, new_user. run_handler. rewrite He. simpl.
  unfold UserModel.create. simpl.
  rewrite TableFacts.unique_violation_spec. simpl. now rewrite Hi.
Qed.

(** C7 (amended).  The body of a 201 sign-up answer is the message
    "Users created!" and, under [user], the whole stored row: its fields
    are id, username, email, password, updatedAt and createdAt, and the
    password field holds the bcrypt hash kept in the table, not the
    password that was sent. *)
Theorem signup_response_body (t : list User) (req : Request) (env : Env) :
  let st := fst (signup req env (fresh t)) in
  option_map status (response st) = Some 201 ->
  exists u p,
    b_password (body req) = Some p
    /\ users st = (t ++ [u])%list
    /\ password u = bcrypt_hash p (salt env)
    /\ option_map json (response st)
       = Some (JObj [("message", JStr "Users created!"); ("user", toJSON u)])
    /\ json_keys (toJSON u)
       = ["id"; "username"; "email"; "password"; "updatedAt"; "createdAt"]
    /\ json_field "password" (toJSON u) = Some (JStr (bcrypt_hash p (salt env))).
Proof.
  intros st H. subst st.
  destruct (signup_created_inv t req env H) as (name & e & p & Hb & _ & _ & E).
  rewrite E. exists (new_user name e p env), p. rewrite Hb.
  repeat split.
Qed.

(** A table that holds [u0], with one more row of the same email at its
    end, holds that email at least twice. *)
Lemma email_held_twice (t : list User) (u0 u : User) :
  In u0 t -> email u = email u0 ->
  (2 <= length (filter (fun r => String.eqb (email r) (email u0)) (t ++ [u])))%nat.
Proof.
  intros Hin He. rewrite filter_app, length_app. cbn [filter].
  rewrite He, String.eqb_refl. cbn [length].
  assert (1 <= length (filter (fun r => String.eqb (email r) (email u0)) t))%nat; [|lia].
  induction t as [|r t IH]; [destruct Hin|].
  cbn [filter]. destruct Hin as [->|Hin].
  - rewrite String.eqb_refl. cbn [length]. lia.
  - destruct (String.eqb (email r) (email u0)); cbn [length]; auto with arith.
Qed.

(** C9.  The model declares [email] as a string column that is not null,
    not a key and not unique.  So on a table where a row [u0] is stored,
    [create] called with the email of [u0] and an id no row has inserts
    and returns the row made of the id, the name, that same email and the
    hash: a row other than [u0] with the email of [u0], after which the
    table holds the email twice.  [create] never fails on the email.  A
    sign-up with a stored email is turned away by the [findOne] test
    alone: the [create] it did not reach would have inserted the
    duplicate. *)
Theorem create_accepts_duplicate_email :
  (Sequelize.type (UserModel.decl Cemail) = Sequelize.STRING
   /\ Sequelize.allowNull (UserModel.decl Cemail) = false
   /\ Sequelize.unique (UserModel.decl Cemail) = false
   /\ Sequelize.primaryKey (UserModel.decl Cemail) = false)
  /\ (forall (t : list User) (u0 : User) (i name h : string) (now : Z),
        In u0 t ->
        (forall r, In r t -> id r <> i) ->
        let u := mkUser i name (email u0) h now now in
        UserModel.create (mkAttrs i (Some name) (Some (email u0)) (Some h)) now t
        = Ret (u, (t ++ [u])%list)
        /\ email u = email u0
        /\ u <> u0
        /\ (2 <= length (filter (fun r => String.eqb (email r) (email u0))
                                (t ++ [u])))%nat)
  /\ (forall (t : list User) (a : Attrs) (now : Z),
        UserModel.create a now t <> Throw (UniqueConstraintError Cemail))
  /\ (forall (t : list User) (u0 : User) (auth : option string) (name p : string) (env : Env),
        In u0 t ->
        (forall r, In r t -> id r <> uuid env) ->
        let u := mkUser (uuid env) name (email u0) (bcrypt_hash p (salt env))
                        (now_ms env) (now_ms env) in
        signup (mkRequest auth (mkBody (Some name) (Some (email u0)) (Some p))) env (fresh t)
        = (mkSt t (Some (mkResponse 400 (message "Users exists!"))) None [] 0 [], Ret tt)
        /\ UserModel.create (mkAttrs (uuid env) (Some name) (Some (email u0))
                                     (Some (bcrypt_hash p (salt env))))
                            (now_ms env) t
           = Ret (u, (t ++ [u])%list)
        /\ email u = email u0).
Proof.
  assert (Hcreate : forall (t : list User) (i name e h : string) (now : Z),
             (forall r, In r t -> id r <> i) ->
             UserModel.create (mkAttrs i (Some name) (Some e) (Some h)) now t
             = Ret (mkUser i name e h now now, (t ++ [mkUser i name e h now now])%list)).
  { intros t i name e h now Hi. apply TableFacts.id_fresh in Hi.
    unfold UserModel.create. simpl.
    rewrite TableFacts.unique_violation_spec. simpl. now rewrite Hi. }
  split; [repeat split|]. split; [|split].
  - intros t u0 i name h now Hin Hi u.
    split; [now apply Hcreate|]. split; [reflexivity|]. split.
    + intros E. apply (Hi u0 Hin). now rewrite <- E.
    + now apply email_held_twice.
  - intros t a now. unfold UserModel.create.
    destruct (UserModel.notNull_violation a); [discriminate|].
    rewrite TableFacts.unique_violation_spec.
    destruct (existsb _ t); discriminate.
  - intros t u0 auth name p env Hin Hi u. split; [|split].
    + now apply signup_stored_email with (u := u0).
    + now apply Hcreate.
    + reflexivity.
Qed.

End SignupFacts.

(* ===================================================================== *)
(** * The middleware and the protected route *)
(* ===================================================================== *)

Section Admission.
Context {B : Bcrypt} {P : JwtPrims}.
Import JsString StringFacts.

Lemma not_bearer_bearer (token : string) :
  not_bearer (Some ("Bearer " ++ token)) = false.
Proof.
  unfold not_bearer, startsWith. now rewrite prefix_app.
Qed.

(** The second word of "scheme token". *)
Lemma second_word_of (scheme token : string) (st : St) :
  mem " " scheme = false -> mem " " token = false ->
  second_word (Some (scheme ++ " " ++ token)) st = (st, Ret (Some token)).
Proof.
  intros Hs Ht. unfold second_word, ret, index.
  change (scheme ++ " " ++ token) with (scheme ++ String " " token).
  now rewrite split_app_sep, (split_no_sep _ _ Ht).
Qed.


(** Another scheme in front of a token that verifies: the 403 is written,
    and the handler is started all the same. *)
Lemma admit_other_scheme (scheme token : string) (c : Claims) (b : Body)
      (env : Env) (t : list User) :
  mem " " scheme = false ->
  startsWith "Bearer " (scheme ++ " " ++ token) = false ->
  mem " " token = false ->
  Jwt.verify (Some token) jwt_token_secret (now_ms env) = inr c ->
  get_protected (mkRequest (Some (scheme ++ " " ++ token)) b) env (fresh t)
  = (mkSt t (Some (mkResponse 403 (message "Incorrect Token! ")))
          (Some c) [] 1 [ERR_HTTP_HEADERS_SENT], Ret tt).
Proof.
  intros Hs Hb Ht Hv. unfold get_protected, authMiddleware.
  cbn [authorization].
  assert (Hnb : not_bearer (Some (scheme ++ " " ++ token)) = true).
  { unfold not_bearer. now rewrite Hb, orb_true_r. }
  rewrite Hnb.
  unfold bind at 1. unfold res_json at 1. cbn [response fresh].
  unfold try_catch, bind at 1.
  rewrite (second_word_of scheme token) by assumption.
  unfold bind at 1, jwt_verify. rewrite Hv. reflexivity.
Qed.

(** When the header is missing, or the check of its second word fails,
    the handler is not started, no claim is attached, and the answer is
    the 403 or the 401. *)
Lemma admit_fails_closed (req : Request) (env : Env) (t : list User) :
  (forall s, authorization req = Some s ->
             exists err, Jwt.verify (index 1 (split " " s)) jwt_token_secret (now_ms env)
                         = inl err) ->
  let st := fst (get_protected req env (fresh t)) in
  next_calls st = 0%nat
  /\ req_user st = None
  /\ users st = t
  /\ (response st = Some (mkResponse 403 (message "Incorrect Token! "))
      \/ response st = Some (mkResponse 401 (message "Unauthorized!"))).
Proof.
  intros H. destruct req as [[s|] b]; cbn [authorization] in H.
  - destruct (H s eq_refl) as [err Herr].
    unfold get_protected, authMiddleware. cbn [authorization].
    destruct (not_bearer (Some s));
      unfold bind, try_catch, second_word, ret, jwt_verify, throw, res_json;
      cbn [response fresh]; rewrite Herr; cbn; auto.
  - cbn. auto.
Qed.

End Admission.

(** ** Which computations leave the table alone *)

Section TableKept.
Context {B : Bcrypt} {P : JwtPrims}.

Lemma keeps_ret {A} (a : A) : keeps_table (ret a).
Proof. now intros st. Qed.

Lemma keeps_throw {A} (e : Exn) : keeps_table (@throw A e).
Proof. now intros st. Qed.

Lemma keeps_bind {A C} (m : M A) (k : A -> M C) :
  keeps_table m -> (forall a, keeps_table (k a)) -> keeps_table (bind m k).
Proof.
  intros Hm Hk st. unfold bind. specialize (Hm st).
  destruct (m st) as [st' [a|e]]; simpl in *; [|exact Hm].
  now rewrite Hk.
Qed.

Lemma keeps_try_catch {A} (m : M A) (h : Exn -> M A) :
  keeps_table m -> (forall e, keeps_table (h e)) -> keeps_table (try_catch m h).
Proof.
  intros Hm Hh st. unfold try_catch. specialize (Hm st).
  destruct (m st) as [st' [a|e]]; simpl in *; [exact Hm|].
  now rewrite Hh.
Qed.

Lemma keeps_res_json code b : keeps_table (res_json code b).
Proof. intros st. unfold res_json. now destruct (response st). Qed.

Lemma keeps_console_error e : keeps_table (console_error e).
Proof. now intros st. Qed.

Lemma keeps_set_req_user c : keeps_table (set_req_user c).
Proof. now intros st. Qed.

Lemma keeps_get_req_user : keeps_table get_req_user.
Proof. now intros st. Qed.

Lemma keeps_findOne e : keeps_table (findOne e).
Proof. now intros st. Qed.

Lemma keeps_call_next (h : M unit) : keeps_table h -> keeps_table (call_next h).
Proof.
  intros Hh st. unfold call_next.
  match goal with |- context [h ?x] => specialize (Hh x); destruct (h x) as [st2 [a|e]] end;
    exact Hh.
Qed.

Lemma keeps_compareSync p h : keeps_table (compareSync p h).
Proof. destruct p; now intros st. Qed.

Lemma keeps_second_word a : keeps_table (second_word a).
Proof. destruct a; now intros st. Qed.

Lemma keeps_jwt_verify tok k now : keeps_table (jwt_verify tok k now).
Proof. unfold jwt_verify. destruct (Jwt.verify tok k now); now intros st. Qed.

End TableKept.

Create HintDb keeps discriminated.
#[export] Hint Resolve keeps_ret keeps_throw keeps_res_json keeps_console_error
  keeps_set_req_user keeps_get_req_user keeps_findOne keeps_compareSync
  keeps_second_word keeps_jwt_verify : keeps.

(** Walk down a handler: sequencing and handlers by their rules, branches
    by cases, leaves from the hint base. *)
Ltac keeps :=
  repeat first
    [ apply keeps_bind; [|intros ?]
    | apply keeps_try_catch; [|intros ?]
    | apply keeps_call_next
    | match goal with
      | |- keeps_table (match ?x with _ => _ end) => destruct x
      end
    | solve [auto with keeps] ].

Section TableGrowth.
Context {B : Bcrypt} {P : JwtPrims}.

Lemma signin_keeps_table req env : keeps_table (signin req env).
Proof. unfold signin. keeps. Qed.

Lemma get_protected_keeps_table req env : keeps_table (get_protected req env).
Proof. unfold get_protected, authMiddleware, protected. keeps. Qed.




End TableGrowth.

Section Journey.
Context {B : Bcrypt} {P : JwtPrims}.
Import JsString StringFacts.



(** C1 (what the code does).  A request whose Authorization header is a
    scheme other than Bearer, a space, and a token of the sign-in route
    that has not expired fails the bearer test, so the 403 "Incorrect
    Token! " goes out; the middleware then goes on, verifies the token,
    attaches the claim and starts the protected handler. *)
Theorem other_scheme_reaches_handler (L : Jwt.Laws P)
    (scheme e : string) (now : Z) (b : Body) (env : Env) (t : list User) :
  mem " " scheme = false ->
  startsWith "Bearer "
    (scheme ++ " " ++ Jwt.sign e jwt_token_secret expiresIn_1h now) = false ->
  Jwt.seconds (now_ms env) < Jwt.seconds now + expiresIn_1h ->
  let req := mkRequest (Some (scheme ++ " " ++ Jwt.sign e jwt_token_secret expiresIn_1h now)) b in
  let st := fst (get_protected req env (fresh t)) in
  not_bearer (authorization req) = true
  /\ response st = Some (mkResponse 403 (message "Incorrect Token! "))
  /\ next_calls st = 1%nat
  /\ option_map c_email (req_user st) = Some e.
Proof.
  intros Hs Hb Hlt req st. subst req st.
  rewrite admit_other_scheme
    with (c := mkClaims e (Jwt.seconds now) (Jwt.seconds now + expiresIn_1h)).
  - cbn [authorization fst response next_calls req_user option_map c_email].
    unfold not_bearer. rewrite Hb, orb_true_r. repeat split.
  - exact Hs.
  - exact Hb.
  - apply (JwtFacts.sign_no_space L).
  - rewrite (JwtFacts.verify_sign L).
    destruct (Z.geb_spec (Jwt.seconds (now_ms env)) (Jwt.seconds now + expiresIn_1h));
      [lia | reflexivity].
Qed.

End Journey.

(** ** A tampered token at the protected route *)

Section NoBypass.
Context {P : JwtPrims}.
Import JsString StringFacts.

(** A bearer header whose second word does not verify: the answer is the
    401, no claim is attached, the handler is not started. *)
Lemma bearer_rejected (rest : string) (err : JwtError) (b : Body) (env : Env) (t : list User) :
  Jwt.verify (index 1 (split " " ("Bearer " ++ rest))) jwt_token_secret (now_ms env)
  = inl err ->
  get_protected (mkRequest (Some ("Bearer " ++ rest)) b) env (fresh t)
  = (mkSt t (Some (mkResponse 401 (message "Unauthorized!"))) None [] 0 [], Ret tt).
Proof.
  intros Hv. unfold get_protected, authMiddleware. cbn [authorization].
  rewrite not_bearer_bearer.
  unfold bind at 1. unfold ret at 1. unfold try_catch, bind at 1.
  unfold second_word, ret, bind, jwt_verify. now rewrite Hv.
Qed.

(** The two sides of an overwritten position. *)
Lemma overwrite_cut (i : nat) (c : ascii) (x : string) :
  Jwt.segment_ok x = true -> Jwt.changes_char i c x ->
  exists pre post d,
    x = pre ++ String d post
    /\ replace_at i c x = pre ++ String c post
    /\ all_chars Jwt.is_b64url pre = true
    /\ all_chars Jwt.is_b64url post = true.
Proof.
  intros Hx (d & Hd & _).
  destruct (replace_at_cut i c d x Hd) as (pre & post & E1 & E2).
  exists pre, post, d. split; [exact E1|]. split; [exact E2|].
  apply JwtFacts.segment_all_chars in Hx. rewrite E1, all_chars_app in Hx. simpl in Hx.
  apply andb_true_iff in Hx as [Hpre Hx]. apply andb_true_iff in Hx as [_ Hpost].
  now split.
Qed.

Lemma app_longer (a : string) (d : ascii) (b : string) : a <> a ++ String d b.
Proof. induction a as [|x a IH]; simpl; [discriminate|]. intros E. injection E as E. auto. Qed.

(** What [verify] is given when a space was written into the token: the
    part before the space, which does not verify. *)
Lemma space_cut_rejected (L : Jwt.Laws P) (email : string) (ttl now now' : Z)
      (seg : Jwt.Segment) (i : nat) :
  let h := Jwt.header_segment in
  let p := Jwt.payload_of email ttl now in
  let s := Jwt.signature_of email jwt_token_secret ttl now in
  Jwt.changes_char i " " (Jwt.segment_text seg p s) ->
  exists err,
    Jwt.verify (index 1 (split " " ("Bearer " ++ Jwt.tamper seg i " " h p s)))
               jwt_token_secret now'
    = inl err.
Proof.
  intros h p s Hch.
  assert (Hh : Jwt.segment_ok h = true) by apply JwtFacts.header_ok.
  assert (Hp : Jwt.segment_ok p = true) by apply (JwtFacts.payload_ok L).
  assert (Hs : Jwt.segment_ok s = true) by apply (JwtFacts.signature_ok L).
  pose proof (JwtFacts.segment_no_dot _ Hh) as Dh.
  pose proof (JwtFacts.segment_no_space _ Hh) as Sh.
  pose proof (JwtFacts.segment_no_dot _ Hp) as Dp.
  pose proof (JwtFacts.segment_no_space _ Hp) as Sp.
  assert (Hnd : forall x, all_chars Jwt.is_b64url x = true -> mem "." x = false)
    by (intros x Hx; now apply all_chars_not_mem with (p := Jwt.is_b64url)).
  assert (Hns : forall x, all_chars Jwt.is_b64url x = true -> mem " " x = false)
    by (intros x Hx; now apply all_chars_not_mem with (p := Jwt.is_b64url)).
  assert (Hsig : s = hmac jwt_token_secret (Jwt.signing_input h p)) by reflexivity.
  clearbody h p s.
  destruct seg; simpl in Hch; unfold Jwt.tamper.
  - destruct (overwrite_cut i " " p Hp Hch) as (pre & post & d & _ & E & Hpre & _).
    rewrite E.
    replace ("Bearer " ++ h ++ "." ++ (pre ++ String " " post) ++ "." ++ s)
      with ("Bearer" ++ String " " ((h ++ "." ++ pre) ++ String " " (post ++ "." ++ s)))
      by (simpl; now rewrite !app_assoc).
    rewrite split_app_sep by reflexivity.
    rewrite split_app_sep
      by (rewrite mem_app; simpl; now rewrite Sh, (Hns _ Hpre)).
    cbn [index nth_error]. exists MalformedToken. unfold Jwt.verify.
    change (h ++ "." ++ pre) with (h ++ String "." pre).
    rewrite split_app_sep by exact Dh.
    now rewrite (split_no_sep _ _ (Hnd _ Hpre)).
  - destruct (overwrite_cut i " " s Hs Hch) as (pre & post & d & Es & E & Hpre & _).
    rewrite E.
    replace ("Bearer " ++ h ++ "." ++ p ++ "." ++ pre ++ String " " post)
      with ("Bearer" ++ String " " ((h ++ "." ++ p ++ "." ++ pre) ++ String " " post))
      by (simpl; repeat (rewrite app_assoc; simpl); reflexivity).
    rewrite split_app_sep by reflexivity.
    rewrite split_app_sep
      by (rewrite !mem_app; simpl; now rewrite Sh, Sp, (Hns _ Hpre)).
    cbn [index nth_error].
    rewrite TamperFacts.verify_three by (assumption || now apply Hnd).
    destruct (Jwt.segment_ok h && Jwt.segment_ok p && Jwt.segment_ok pre);
      [|now exists MalformedToken].
    destruct (String.eqb_spec pre (hmac jwt_token_secret (Jwt.signing_input h p)))
      as [Eq|_]; [|now exists InvalidSignature].
    exfalso. rewrite <- Hsig, Es in Eq. exact (app_longer _ _ _ Eq).
Qed.

(** No bypass at the route: a token of the sign-in route with one character
    of its payload or signature overwritten, presented as a bearer, is
    answered 401; no claim is attached and the handler is not started.
    For the payload, when the signature has no collision under the secret. *)
Lemma tampered_bearer_rejected (L : Jwt.Laws P) (email : string) (ttl now : Z)
      (seg : Jwt.Segment) (i : nat) (c : ascii) (b : Body) (env : Env) (t : list User) :
  let h := Jwt.header_segment in
  let p := Jwt.payload_of email ttl now in
  let s := Jwt.signature_of email jwt_token_secret ttl now in
  Jwt.changes_char i c (Jwt.segment_text seg p s) ->
  (seg = Jwt.PayloadSegment -> Jwt.collision_free jwt_token_secret) ->
  get_protected (mkRequest (Some ("Bearer " ++ Jwt.tamper seg i c h p s)) b) env (fresh t)
  = (mkSt t (Some (mkResponse 401 (message "Unauthorized!"))) None [] 0 [], Ret tt).
Proof.
  intros h p s Hch Hmac.
  destruct (Ascii.eqb_spec c " ") as [->|Hsp].
  - destruct (space_cut_rejected L email ttl now (now_ms env) seg i Hch) as [err Herr].
    now apply bearer_rejected with (err := err).
  - apply bearer_rejected
      with (err := if Jwt.is_b64url c then InvalidSignature else MalformedToken).
    assert (Hh : Jwt.segment_ok h = true) by apply JwtFacts.header_ok.
    assert (Hp : Jwt.segment_ok p = true) by apply (JwtFacts.payload_ok L).
    assert (Hs : Jwt.segment_ok s = true) by apply (JwtFacts.signature_ok L).
    assert (Hns : forall x, Jwt.segment_ok x = true -> Jwt.changes_char i c x ->
                            mem " " (replace_at i c x) = false).
    { intros x Hx Hc. destruct (overwrite_cut i c x Hx Hc) as (pre & post & d & _ & E & Hpre & Hpost).
      rewrite E, mem_app. simpl.
      rewrite (all_chars_not_mem Jwt.is_b64url " " pre Hpre eq_refl).
      rewrite (all_chars_not_mem Jwt.is_b64url " " post Hpost eq_refl).
      now destruct (Ascii.eqb_spec c " "). }
    assert (Hsp' : mem " " (Jwt.tamper seg i c h p s) = false).
    { pose proof (JwtFacts.segment_no_space _ Hh) as Sh.
      pose proof (JwtFacts.segment_no_space _ Hp) as Sp.
      pose proof (JwtFacts.segment_no_space _ Hs) as Ss.
      destruct seg; simpl in Hch; unfold Jwt.tamper; rewrite !mem_app;
        rewrite ?Sh, ?Sp, ?Ss, ?(Hns _ Hp Hch), ?(Hns _ Hs Hch); reflexivity. }
    change ("Bearer " ++ Jwt.tamper seg i c h p s)
      with ("Bearer" ++ String " " (Jwt.tamper seg i c h p s)).
    rewrite split_app_sep by reflexivity.
    rewrite (split_no_sep _ _ Hsp'). cbn [index nth_error].
    now apply (verify_tampered L).
Qed.

(** A token of the sign-in route presented as a bearer at or after its
    expiry is answered 401, and the handler is not started. *)
Lemma expired_bearer_rejected (L : Jwt.Laws P) (email : string) (now : Z)
      (b : Body) (env : Env) (t : list User) :
  Jwt.seconds now + expiresIn_1h <= Jwt.seconds (now_ms env) ->
  get_protected
    (mkRequest (Some ("Bearer " ++ Jwt.sign email jwt_token_secret expiresIn_1h now)) b)
    env (fresh t)
  = (mkSt t (Some (mkResponse 401 (message "Unauthorized!"))) None [] 0 [], Ret tt).
Proof.
  intros Hexp. apply bearer_rejected with (err := Expired).
  change ("Bearer " ++ Jwt.sign email jwt_token_secret expiresIn_1h now)
    with ("Bearer" ++ String " " (Jwt.sign email jwt_token_secret expiresIn_1h now)).
  rewrite split_app_sep by reflexivity.
  rewrite (split_no_sep _ _ (JwtFacts.sign_no_space L _ _ _ _)). cbn [index nth_error].
  rewrite (JwtFacts.verify_sign L).
  destruct (Z.geb_spec (Jwt.seconds (now_ms env)) (Jwt.seconds now + expiresIn_1h));
    [reflexivity | lia].
Qed.

End NoBypass.

(* ===================================================================== *)
(** * The front ends *)
(* ===================================================================== *)

Module FrontendFacts.
Import JsString.

Lemma reducer_in_step (s : AuthSlice.State) (a : AuthSlice.Action) :
  AuthSlice.in_step s ->
  match a with
  | AuthSlice.loginSuccess payload => truthy (AuthSlice.p_token payload) = true
  | _ => True
  end ->
  AuthSlice.in_step (fst (AuthSlice.reducer s a)).
Proof.
  unfold AuthSlice.in_step. intros Hs Ha. destruct a; simpl; auto.
Qed.

Lemma dispatch_all_in_step (actions : list AuthSlice.Action) (s : AuthSlice.State) :
  AuthSlice.in_step s -> AuthSlice.tokens_present actions ->
  AuthSlice.in_step (AuthSlice.dispatch_all s actions).
Proof.
  revert s. induction actions as [|a actions IH]; intros s Hs Hall; [exact Hs|].
  inversion Hall as [|? ? Ha Hrest]; subst. simpl.
  apply IH; [|exact Hrest]. now apply reducer_in_step.
Qed.

Lemma initialState_inv decodeURIComponent document_cookie s0 :
  AuthSlice.initialState decodeURIComponent document_cookie = Ret s0 ->
  Cookies.getCookie decodeURIComponent document_cookie "token" = Ret (AuthSlice.token s0)
  /\ AuthSlice.loading s0 = false
  /\ AuthSlice.in_step s0.
Proof.
  unfold AuthSlice.initialState, AuthSlice.in_step.
  destruct (Cookies.getCookie decodeURIComponent document_cookie "token") as [v|e];
    [|discriminate].
  intros H. injection H as <-. repeat split.
Qed.

End FrontendFacts.

(** C8 (amended).  Neither front end looks at the signature or the expiry
    of the token.  In the Context front end [isAuthenticated] is the
    non-emptiness of the token held in state, which is read from the
    'token' cookie at start, replaced by [login] and cleared by [logout].
    In the Redux front end the flag is a field of its own: at start it is
    the non-emptiness of the cookie's token, [loginFailure] and [logout]
    clear it, and [loginSuccess] sets it whatever token comes with the
    action; flag and token agree after every run of actions in which each
    [loginSuccess] carries a non-empty token.  [ProtectedRoute] shows the
    protected children exactly when [loading] is off and the flag is on; at
    start that is the case for every non-empty token read from the cookie. *)
Theorem isAuthenticated_follows_token
    (decodeURIComponent : string -> option string) (document_cookie : string) :
  (forall st0,
      UserContext.init decodeURIComponent document_cookie = Ret st0 ->
      Cookies.getCookie decodeURIComponent document_cookie "token"
      = Ret (UserContext.token st0)
      /\ forall ops,
          UserContext.isAuthenticated (UserContext.run st0 ops)
          = JsString.truthy (UserContext.token (UserContext.run st0 ops)))
  /\ (forall st accessToken userEmail,
         UserContext.isAuthenticated (UserContext.login accessToken userEmail st)
         = JsString.truthy accessToken
         /\ UserContext.isAuthenticated (UserContext.logout st) = false)
  /\ (forall s0,
         AuthSlice.initialState decodeURIComponent document_cookie = Ret s0 ->
         Cookies.getCookie decodeURIComponent document_cookie "token"
         = Ret (AuthSlice.token s0)
         /\ forall actions,
             AuthSlice.tokens_present actions ->
             AuthSlice.isAuthenticated (AuthSlice.dispatch_all s0 actions)
             = JsString.truthy (AuthSlice.token (AuthSlice.dispatch_all s0 actions)))
  /\ (forall state,
         AuthSlice.ProtectedRoute state = Children
         <-> AuthSlice.selectLoading state = false
             /\ AuthSlice.selectIsAuthenticated state = true)
  /\ (forall s0 token,
         AuthSlice.initialState decodeURIComponent document_cookie = Ret s0 ->
         Cookies.getCookie decodeURIComponent document_cookie "token" = Ret (Some token) ->
         token <> "" ->
         AuthSlice.ProtectedRoute (AuthSlice.mkRoot s0) = Children).
Proof.
  split; [|split; [|split; [|split]]].
  - intros st0 H. unfold UserContext.init in H.
    destruct (Cookies.getCookie decodeURIComponent document_cookie "token") as [v|e];
      [|discriminate].
    injection H as <-. split; reflexivity.
  - intros st accessToken userEmail. split; reflexivity.
  - intros s0 H. destruct (FrontendFacts.initialState_inv _ _ _ H) as (Hc & _ & Hs).
    split; [exact Hc|]. intros actions Hall.
    now apply FrontendFacts.dispatch_all_in_step.
  - intros [s]. unfold AuthSlice.ProtectedRoute, AuthSlice.selectLoading,
      AuthSlice.selectIsAuthenticated. simpl.
    destruct (AuthSlice.loading s), (AuthSlice.isAuthenticated s); simpl;
      split; intros H; try discriminate H; try (now destruct H); now split.
  - intros s0 token H Hc Hne.
    destruct (FrontendFacts.initialState_inv _ _ _ H) as (Hc' & Hl & Hs).
    rewrite Hc in Hc'. injection Hc' as Ht.
    unfold AuthSlice.ProtectedRoute, AuthSlice.selectLoading,
      AuthSlice.selectIsAuthenticated. simpl.
    rewrite Hl, Hs, <- Ht. simpl.
    now destruct (String.eqb_spec token "").
Qed.

(* ===================================================================== *)
(** * More on the routes *)
(* ===================================================================== *)

Section RouteTables.
Context {B : Bcrypt} {P : JwtPrims}.

(** The sign-up route, case by case. *)
Lemma signup_cases (req : Request) (env : Env) (t : list User) :
  signup req env (fresh t) =
  match b_email (body req) with
  | None =>
      (mkSt t (Some (mkResponse 500 (message "Create user Error"))) None
            [WhereUndefined Cemail] 0 [], Ret tt)
  | Some e =>
      match find (fun r => String.eqb (email r) e) t with
      | Some _ =>
          (mkSt t (Some (mkResponse 400 (message "Users exists!"))) None [] 0 [], Ret tt)
      | None =>
          match b_password (body req), b_username (body req) with
          | None, _ =>
              (mkSt t (Some (mkResponse 500 (message "Create user Error"))) None
                    [IllegalArguments] 0 [], Ret tt)
          | Some _, None =>
              (mkSt t (Some (mkResponse 500 (message "Create user Error"))) None
                    [ValidationError Cusername] 0 [], Ret tt)
          | Some p, Some name =>
              if existsb (fun r => String.eqb (id r) (uuid env)) t
              then (mkSt t (Some (mkResponse 500 (message "Create user Error"))) None
                         [UniqueConstraintError Cid] 0 [], Ret tt)
              else (created t (new_user name e p env), Ret tt)
          end
      end
  end.
Proof.
  destruct req as [auth [name e p]]. unfold created, new_user. run_handler.
  destruct e as [e|]; simpl; [|reflexivity].
  destruct (find (fun r => String.eqb (email r) e) t); simpl; [reflexivity|].
  destruct p as [p|]; simpl; [|reflexivity].
  unfold UserModel.create.
  destruct name as [name|]; simpl; [|reflexivity].
  rewrite TableFacts.unique_violation_spec. simpl.
  now destruct (existsb (fun r => String.eqb (id r) (uuid env)) t).
Qed.

(** The sign-in route, case by case. *)
Lemma signin_cases (req : Request) (env : Env) (t : list User) :
  signin req env (fresh t) =
  match b_email (body req) with
  | None =>
      (mkSt t (Some (mkResponse 500 (message "Login user Error"))) None
            [WhereUndefined Cemail] 0 [], Ret tt)
  | Some e =>
      match find (fun r => String.eqb (email r) e) t with
      | None =>
          (mkSt t (Some (mkResponse 400 (message "Users not exists!"))) None [] 0 [], Ret tt)
      | Some u =>
          match b_password (body req) with
          | None =>
              (mkSt t (Some (mkResponse 500 (message "Login user Error"))) None
                    [IllegalArguments] 0 [], Ret tt)
          | Some p =>
              if bcrypt_compare p (password u)
              then (mkSt t
                      (Some (mkResponse 200
                        (JObj [("message", JStr "Login ok!");
                               ("accessToken",
                                JStr (Jwt.sign e jwt_token_secret expiresIn_1h (now_ms env)))])))
                      None [] 0 [], Ret tt)
              else (mkSt t (Some (mkResponse 400 (message "Incorrect password!")))
                         None [] 0 [], Ret tt)
          end
      end
  end.
Proof.
  destruct req as [auth [name e p]]. run_handler.
  destruct e as [e|]; simpl; [|reflexivity].
  destruct (find (fun r => String.eqb (email r) e) t); simpl; [|reflexivity].
  destruct p as [p|]; simpl; [|reflexivity].
  now destruct (bcrypt_compare p (password u)).
Qed.

(** The protected route, case by case. *)
Lemma get_protected_cases (req : Request) (env : Env) (t : list User) :
  get_protected req env (fresh t) =
  match not_bearer (authorization req), verified (authorization req) (now_ms env) with
  | true, None =>
      (mkSt t (Some (mkResponse 403 (message "Incorrect Token! "))) None [] 0 [],
       Throw ERR_HTTP_HEADERS_SENT)
  | true, Some c =>
      (mkSt t (Some (mkResponse 403 (message "Incorrect Token! "))) (Some c) [] 1
            [ERR_HTTP_HEADERS_SENT], Ret tt)
  | false, None =>
      (mkSt t (Some (mkResponse 401 (message "Unauthorized!"))) None [] 0 [], Ret tt)
  | false, Some c =>
      (mkSt t
         (Some (mkResponse 200
                  (message ("Has entrado en ruta privada! y tu email es: " ++ c_email c))))
         (Some c) [] 1 [], Ret tt)
  end.
Proof.
  destruct req as [[s|] b]; unfold get_protected, authMiddleware, verified;
    cbn [authorization].
  - destruct (not_bearer (Some s));
      unfold bind, try_catch, second_word, ret, jwt_verify, throw, res_json;
      cbn [response fresh];
      destruct (Jwt.verify (JsString.index 1 (JsString.split " " s))
                           jwt_token_secret (now_ms env)); reflexivity.
  - reflexivity.
Qed.

End RouteTables.

Section RouteAnswers.
Context {B : Bcrypt} {P : JwtPrims}.

(** X1.  The sign-up route answers every request, and lets no exception
    out: the answer is the 201 with the new row, and then that row is the
    one row added to the table, or the 400 "Users exists!" or the 500
    "Create user Error", and then the table is as it was. *)
Theorem signup_answers (req : Request) (env : Env) (t : list User) :
  let out := signup req env (fresh t) in
  snd out = Ret tt
  /\ ((exists u,
         response (fst out)
         = Some (mkResponse 201 (JObj [("message", JStr "Users created!");
                                       ("user", toJSON u)]))
         /\ users (fst out) = (t ++ [u])%list)
      \/ (response (fst out) = Some (mkResponse 400 (message "Users exists!"))
          /\ users (fst out) = t)
      \/ (response (fst out) = Some (mkResponse 500 (message "Create user Error"))
          /\ users (fst out) = t)).
Proof.
  cbv zeta. rewrite signup_cases.
  destruct (b_email (body req)) as [e|]; [|split; [reflexivity | right; right; now split]].
  destruct (find (fun r => String.eqb (email r) e) t);
    [split; [reflexivity | right; left; now split]|].
  destruct (b_password (body req)) as [p|];
    [|split; [reflexivity | right; right; now split]].
  destruct (b_username (body req)) as [name|];
    [|split; [reflexivity | right; right; now split]].
  destruct (existsb (fun r => String.eqb (id r) (uuid env)) t);
    [split; [reflexivity | right; right; now split]|].
  split; [reflexivity|]. left. exists (new_user name e p env). now split.
Qed.

(** X2.  The sign-in route answers every request, lets no exception out
    and never touches the table: the answer is the 200 with a token, one of
    the two 400s, or the 500 "Login user Error". *)
Theorem signin_answers (req : Request) (env : Env) (t : list User) :
  let out := signin req env (fresh t) in
  snd out = Ret tt
  /\ users (fst out) = t
  /\ ((exists token,
         response (fst out)
         = Some (mkResponse 200 (JObj [("message", JStr "Login ok!");
                                       ("accessToken", JStr token)])))
      \/ response (fst out) = Some (mkResponse 400 (message "Users not exists!"))
      \/ response (fst out) = Some (mkResponse 400 (message "Incorrect password!"))
      \/ response (fst out) = Some (mkResponse 500 (message "Login user Error"))).
Proof.
  cbv zeta. rewrite signin_cases.
  destruct (b_email (body req)) as [e|];
    [|split; [|split]; [reflexivity | reflexivity | now do 3 right]].
  destruct (find (fun r => String.eqb (email r) e) t) as [u|];
    [|split; [|split]; [reflexivity | reflexivity | now right; left]].
  destruct (b_password (body req)) as [p|];
    [|split; [|split]; [reflexivity | reflexivity | now do 3 right]].
  destruct (bcrypt_compare p (password u));
    (split; [|split]; [reflexivity | reflexivity |]).
  - left. now eexists.
  - now right; right; left.
Qed.

(** X3.  The answer of the protected route is decided by two tests: 403
    whenever the header fails the bearer test, whatever the token is worth;
    otherwise 401 when the second word of the header does not verify, and
    200 when it does.  The table is never touched. *)
Theorem protected_status (req : Request) (env : Env) (t : list User) :
  let st := fst (get_protected req env (fresh t)) in
  users st = t
  /\ option_map status (response st)
     = Some (if not_bearer (authorization req) then 403
             else match verified (authorization req) (now_ms env) with
                  | Some _ => 200
                  | None => 401
                  end).
Proof.
  cbv zeta. rewrite get_protected_cases.
  destruct (not_bearer (authorization req)),
           (verified (authorization req) (now_ms env)); now split.
Qed.

(** X4.  The middleware starts the protected handler exactly when the
    second word of the Authorization header verifies, and at most once;
    the claim it attaches to the request is the verified one.  Without a
    header, or with a second word that does not verify, no claim is
    attached and the handler is not started. *)
Theorem handler_started_iff_verified (req : Request) (env : Env) (t : list User) :
  let st := fst (get_protected req env (fresh t)) in
  req_user st = verified (authorization req) (now_ms env)
  /\ next_calls st
     = match verified (authorization req) (now_ms env) with
       | Some _ => 1%nat
       | None => 0%nat
       end.
Proof.
  cbv zeta. rewrite get_protected_cases.
  destruct (not_bearer (authorization req)),
           (verified (authorization req) (now_ms env)); now split.
Qed.

(** X5.  For a sign-up whose username, email and password are each a
    string or absent, which is what the register page sends: the answer
    is 201 exactly when all three are present, no stored row has the email
    and no stored row has the new id.  The text of the three strings is
    not looked at, so empty strings pass. *)
Theorem signup_created_iff (req : Request) (env : Env) (t : list User) :
  option_map status (response (fst (signup req env (fresh t)))) = Some 201
  <-> exists name e p,
        body req = mkBody (Some name) (Some e) (Some p)
        /\ (forall r, In r t -> email r <> e)
        /\ (forall r, In r t -> id r <> uuid env).
Proof.
  split.
  - intros H. destruct (signup_created_inv t req env H) as (name & e & p & Hb & Hf & Hi & _).
    exists name, e, p. split; [exact Hb|]. split.
    + now apply TableFacts.find_email_absent_inv.
    + intros r Hr E.
      assert (Hex : existsb (fun r => String.eqb (id r) (uuid env)) t = true).
      { apply existsb_exists. exists r. split; [exact Hr|]. now apply String.eqb_eq. }
      congruence.
  - intros (name & e & p & Hb & He & Hi).
    destruct req as [auth b]. cbn [body] in Hb. subst b.
    now rewrite (signup_created t auth name e p env He Hi).
Qed.

(** X6.  A sign-in is answered 200 exactly when the body has email and
    password, a stored row has the email, and bcrypt accepts the password
    against the hash of the first such row; the token sent is then the one
    signed for the email of the request with the fixed secret and one hour
    to live.  No token goes out on any other request. *)
Theorem signin_token_iff (req : Request) (env : Env) (t : list User) (token : string) :
  accessToken_of (response (fst (signin req env (fresh t)))) = Some token
  <-> exists e p u,
        b_email (body req) = Some e
        /\ b_password (body req) = Some p
        /\ find (fun r => String.eqb (email r) e) t = Some u
        /\ bcrypt_compare p (password u) = true
        /\ token = Jwt.sign e jwt_token_secret expiresIn_1h (now_ms env).
Proof.
  rewrite signin_cases. split.
  - destruct (b_email (body req)) as [e|]; [|discriminate].
    destruct (find (fun r => String.eqb (email r) e) t) as [u|] eqn:Hf; [|discriminate].
    destruct (b_password (body req)) as [p|]; [|discriminate].
    destruct (bcrypt_compare p (password u)) eqn:Hc; [|discriminate].
    cbn. intros H. injection H as <-. exists e, p, u. repeat split; assumption.
  - intros (e & p & u & -> & -> & -> & -> & ->). reflexivity.
Qed.

(** X7.  A sign-up that brings password and a new email but no username
    stops at the model's [allowNull: false] on [username]: it is answered
    500 "Create user Error", the validation error is logged, and no row is
    created. *)
Theorem signup_without_username (req : Request) (env : Env) (t : list User) (e p : string) :
  b_username (body req) = None ->
  b_email (body req) = Some e ->
  b_password (body req) = Some p ->
  (forall r, In r t -> email r <> e) ->
  signup req env (fresh t)
  = (mkSt t (Some (mkResponse 500 (message "Create user Error"))) None
          [ValidationError Cusername] 0 [], Ret tt).
Proof.
  intros Hn He Hp Habs. apply TableFacts.find_email_absent in Habs.
  now rewrite signup_cases, He, Habs, Hp, Hn.
Qed.

(** X8.  A sign-up whose generated id a stored row already has stops at
    the primary key: it is answered 500 "Create user Error", the duplicate
    key is logged, and the table is as it was. *)
Theorem signup_id_collision (req : Request) (env : Env) (t : list User)
    (name e p : string) (r0 : User) :
  body req = mkBody (Some name) (Some e) (Some p) ->
  (forall r, In r t -> email r <> e) ->
  In r0 t -> id r0 = uuid env ->
  signup req env (fresh t)
  = (mkSt t (Some (mkResponse 500 (message "Create user Error"))) None
          [UniqueConstraintError Cid] 0 [], Ret tt).
Proof.
  intros Hb Habs Hin Hid. apply TableFacts.find_email_absent in Habs.
  assert (Hex : existsb (fun r => String.eqb (id r) (uuid env)) t = true).
  { apply existsb_exists. exists r0. split; [exact Hin|]. now apply String.eqb_eq. }
  now rewrite signup_cases, Hb; cbn [body b_email b_password b_username];
    rewrite Habs, Hex.
Qed.

(** X9.  A sign-in that names a stored email and brings no password makes
    [compareSync] throw: it is answered 500 "Login user Error", not one of
    the 400s, and the error is logged. *)
Theorem signin_without_password (req : Request) (env : Env) (t : list User) (u : User) :
  b_password (body req) = None ->
  b_email (body req) = Some (email u) ->
  In u t ->
  signin req env (fresh t)
  = (mkSt t (Some (mkResponse 500 (message "Login user Error"))) None
          [IllegalArguments] 0 [], Ret tt).
Proof.
  intros Hp He Hin. destruct (TableFacts.find_email_present t u Hin) as [u' Hu'].
  now rewrite signin_cases, He, Hu', Hp.
Qed.

End RouteAnswers.

(* ===================================================================== *)
(** * The table over a run of calls *)
(* ===================================================================== *)

Section TableRuns.
Context {B : Bcrypt} {P : JwtPrims}.

(** Serving one call leaves the table as it was, or adds at its end one
    row whose email and id no stored row has and whose password is a
    bcrypt hash. *)
Lemma serve_grows (c : Call) (t : list User) :
  users (serve c t) = t
  \/ exists u,
      users (serve c t) = (t ++ [u])%list
      /\ (forall r, In r t -> email r <> email u)
      /\ (forall r, In r t -> id r <> id u)
      /\ (exists p s, password u = bcrypt_hash p s).
Proof.
  destruct c as [req env|req env|req env]; simpl.
  - rewrite signup_cases.
    destruct (b_email (body req)) as [e|]; [|now left].
    destruct (find (fun r => String.eqb (email r) e) t) eqn:Hf; [now left|].
    destruct (b_password (body req)) as [p|]; [|now left].
    destruct (b_username (body req)) as [name|]; [|now left].
    destruct (existsb (fun r => String.eqb (id r) (uuid env)) t) eqn:Hi; [now left|].
    right. exists (new_user name e p env). split; [reflexivity|]. split; [|split].
    + now apply TableFacts.find_email_absent_inv.
    + intros r Hr E. cbn in E.
      assert (Hex : existsb (fun r => String.eqb (id r) (uuid env)) t = true).
      { apply existsb_exists. exists r. split; [exact Hr|]. now apply String.eqb_eq. }
      congruence.
    + now exists p, (salt env).
  - left. apply (signin_keeps_table req env (fresh t)).
  - left. apply (get_protected_keeps_table req env (fresh t)).
Qed.

(** X10.  Whatever calls are served, the table only grows at its end: the
    rows it held stay where they were, unchanged, and at most one row is
    added per call. *)
Theorem table_append_only (calls : list Call) (t : list User) :
  exists added,
    table_after calls t = (t ++ added)%list
    /\ (length added <= length calls)%nat.
Proof.
  revert t. induction calls as [|c calls IH]; intros t.
  - exists []. split; [now rewrite app_nil_r | auto].
  - change (table_after (c :: calls) t) with (table_after calls (users (serve c t))).
    destruct (serve_grows c t) as [Hu|(u & Hu & _)]; rewrite Hu.
    + destruct (IH t) as (added & E & Hlen).
      exists added. split; [exact E | simpl; lia].
    + destruct (IH (t ++ [u])%list) as (added & E & Hlen).
      exists (u :: added). split.
      * now rewrite E, <- app_assoc.
      * simpl. lia.
Qed.

(** X11.  On a table where no two rows share an email, no run of calls
    ever produces two rows with the same email. *)
Theorem emails_stay_distinct (calls : list Call) (t : list User) :
  NoDup (map email t) ->
  NoDup (map email (table_after calls t)).
Proof.
  revert t. induction calls as [|c calls IH]; intros t Ht; [exact Ht|].
  change (table_after (c :: calls) t) with (table_after calls (users (serve c t))).
  apply IH.
  destruct (serve_grows c t) as [->|(u & -> & He & _)]; [exact Ht|].
  rewrite map_app. simpl.
  apply NoDup_app; [exact Ht | repeat constructor; intros [] |].
  intros x Hx [<-|[]]. apply in_map_iff in Hx as (r & Er & Hr).
  exact (He r Hr Er).
Qed.

(** X12.  On a table where no two rows share an id, no run of calls ever
    produces two rows with the same id. *)
Theorem ids_stay_distinct (calls : list Call) (t : list User) :
  NoDup (map id t) ->
  NoDup (map id (table_after calls t)).
Proof.
  revert t. induction calls as [|c calls IH]; intros t Ht; [exact Ht|].
  change (table_after (c :: calls) t) with (table_after calls (users (serve c t))).
  apply IH.
  destruct (serve_grows c t) as [->|(u & -> & _ & Hi & _)]; [exact Ht|].
  rewrite map_app. simpl.
  apply NoDup_app; [exact Ht | repeat constructor; intros [] |].
  intros x Hx [<-|[]]. apply in_map_iff in Hx as (r & Er & Hr).
  exact (Hi r Hr Er).
Qed.

(** X13.  Every row a run of calls adds to the table holds, as password,
    what [hashSync] returned: the routes never store the password of a
    request as it came. *)
Theorem added_passwords_hashed (calls : list Call) (t : list User) :
  exists added,
    table_after calls t = (t ++ added)%list
    /\ Forall (fun u => exists p s, password u = bcrypt_hash p s) added.
Proof.
  revert t. induction calls as [|c calls IH]; intros t.
  - exists []. split; [now rewrite app_nil_r | constructor].
  - change (table_after (c :: calls) t) with (table_after calls (users (serve c t))).
    destruct (serve_grows c t) as [Hu|(u & Hu & _ & _ & Hh)]; rewrite Hu.
    + destruct (IH t) as (added & E & Hall). now exists added.
    + destruct (IH (t ++ [u])%list) as (added & E & Hall).
      exists (u :: added). split.
      * now rewrite E, <- app_assoc.
      * now constructor.
Qed.


End TableRuns.

(** X15.  [UserModel.create], called with an id as the sign-up route
    calls it, inserts exactly when username, email and password are all
    given and no stored row has the id; the row it returns carries the id
    and these three values, with the clock in both dates, and the new
    table is the old one with that row at its end.  The email plays no
    part in the test. *)
Theorem create_iff (a : Attrs) (now : Z) (t t' : list User) (u : User) :
  UserModel.create a now t = Ret (u, t')
  <-> exists name e h,
        a = mkAttrs (a_id a) (Some name) (Some e) (Some h)
        /\ (forall r, In r t -> id r <> a_id a)
        /\ u = mkUser (a_id a) name e h now now
        /\ t' = (t ++ [u])%list.
Proof.
  unfold UserModel.create. split.
  - destruct a as [i [name|] [e|] [h|]]; simpl; try discriminate.
    rewrite TableFacts.unique_violation_spec. simpl.
    destruct (existsb (fun r => String.eqb (id r) i) t) eqn:Hex; [discriminate|].
    intros H. injection H as <- <-.
    exists name, e, h. repeat split.
    intros r Hr E.
    assert (Hex' : existsb (fun r => String.eqb (id r) i) t = true).
    { apply existsb_exists. exists r. split; [exact Hr|]. now apply String.eqb_eq. }
    congruence.
  - destruct a as [i name0 e0 h0]. cbn [a_id].
    intros (name & e & h & E & Hi & -> & ->). injection E as -> -> ->. simpl.
    rewrite TableFacts.unique_violation_spec. simpl.
    now rewrite (TableFacts.id_fresh t i Hi).
Qed.

(* ===================================================================== *)
(** * The middleware on odd headers *)
(* ===================================================================== *)

Section OddHeaders.
Context {P : JwtPrims}.
Import JsString StringFacts.

(** X16.  The middleware looks at the second word of the header only:
    whatever follows a further space after the token changes nothing in
    what the route does. *)
Theorem trailing_words_ignored (token rest : string) (b : Body) (env : Env) (t : list User) :
  mem " " token = false ->
  get_protected (mkRequest (Some ("Bearer " ++ token ++ " " ++ rest)) b) env (fresh t)
  = get_protected (mkRequest (Some ("Bearer " ++ token)) b) env (fresh t).
Proof.
  intros Ht. rewrite !get_protected_cases. cbn [authorization].
  rewrite !not_bearer_bearer.
  assert (E : verified (Some ("Bearer " ++ token ++ " " ++ rest)) (now_ms env)
              = verified (Some ("Bearer " ++ token)) (now_ms env)).
  { unfold verified.
    change ("Bearer " ++ token ++ " " ++ rest)
      with ("Bearer" ++ String " " (token ++ String " " rest)).
    change ("Bearer " ++ token) with ("Bearer" ++ String " " token).
    rewrite !split_app_sep by (reflexivity || exact Ht).
    now rewrite (split_no_sep _ _ Ht). }
  now rewrite E.
Qed.

(** X17.  With two spaces after "Bearer" the second word is empty, and
    whatever token follows, the request is answered 401 and the handler is
    not started. *)
Theorem empty_second_word (rest : string) (b : Body) (env : Env) (t : list User) :
  get_protected (mkRequest (Some ("Bearer " ++ " " ++ rest)) b) env (fresh t)
  = (mkSt t (Some (mkResponse 401 (message "Unauthorized!"))) None [] 0 [], Ret tt).
Proof.
  rewrite get_protected_cases. cbn [authorization].
  change ("Bearer " ++ " " ++ rest) with ("Bearer " ++ (" " ++ rest)) at 1.
  rewrite not_bearer_bearer. unfold verified.
  change ("Bearer " ++ " " ++ rest) with ("Bearer" ++ String " " ("" ++ String " " rest)).
  now rewrite !split_app_sep by reflexivity.
Qed.

End OddHeaders.

Section IssuedTokens.
Context {B : Bcrypt} {P : JwtPrims}.
Import JsString StringFacts.

(** X18.  The token of a 200 sign-in answer, presented as a bearer once
    the clock's second has reached the second of the sign-in plus 3600, is
    answered 401 "Unauthorized!" and the handler is not started. *)
Theorem issued_token_expires (L : Jwt.Laws P)
    (req : Request) (env2 env3 : Env) (t t3 : list User) (token : string) (b : Body) :
  accessToken_of (response (fst (signin req env2 (fresh t)))) = Some token ->
  Jwt.seconds (now_ms env2) + expiresIn_1h <= Jwt.seconds (now_ms env3) ->
  get_protected (mkRequest (Some ("Bearer " ++ token)) b) env3 (fresh t3)
  = (mkSt t3 (Some (mkResponse 401 (message "Unauthorized!"))) None [] 0 [], Ret tt).
Proof.
  intros Htok Hexp. rewrite signin_cases in Htok.
  destruct (b_email (body req)) as [e|]; [|discriminate].
  destruct (find (fun r => String.eqb (email r) e) t) as [u|]; [|discriminate].
  destruct (b_password (body req)) as [p|]; [|discriminate].
  destruct (bcrypt_compare p (password u)); [|discriminate].
  assert (E : token = Jwt.sign e jwt_token_secret expiresIn_1h (now_ms env2))
    by (cbn in Htok; injection Htok as <-; reflexivity).
  clear Htok. subst token.
  rewrite get_protected_cases. cbn [authorization].
  rewrite not_bearer_bearer. unfold verified.
  change ("Bearer " ++ Jwt.sign e jwt_token_secret expiresIn_1h (now_ms env2))
    with ("Bearer" ++ String " " (Jwt.sign e jwt_token_secret expiresIn_1h (now_ms env2))).
  rewrite split_app_sep by reflexivity.
  rewrite (split_no_sep _ _ (JwtFacts.sign_no_space L _ _ _ _)). cbn [index nth_error].
  rewrite (JwtFacts.verify_sign L).
  destruct (Z.geb_spec (Jwt.seconds (now_ms env3))
                       (Jwt.seconds (now_ms env2) + expiresIn_1h)); [reflexivity | lia].
Qed.

End IssuedTokens.

(* ===================================================================== *)
(** * Cookies *)
(* ===================================================================== *)

Module CookieFacts.
Import JsString StringFacts.

Lemma prefix_sep_here (rest : string) : String.prefix "; " ("; " ++ rest) = true.
Proof.
  cbn [append String.prefix]. destruct (ascii_dec ";" ";") as [_|n]; [|now elim n].
  destruct (ascii_dec " " " ") as [_|n]; [|now elim n].
  now destruct rest.
Qed.

Lemma prefix_sep_not_here (c : ascii) (x : string) :
  Ascii.eqb c ";" = false -> String.prefix "; " (String c x) = false.
Proof.
  intros H. cbn [String.prefix]. destruct (ascii_dec ";" c) as [<-|_]; [discriminate | reflexivity].
Qed.

(** A row without [';'] is one piece, up to the next "; ". *)
Lemma split_str_row (r rest : string) :
  mem ";" r = false ->
  split_str "; " (r ++ "; " ++ rest) = r :: split_str "; " rest.
Proof.
  unfold split_str. induction r as [|c r IH]; intros H.
  - change ("" ++ "; " ++ rest) with (String ";" (String " " rest)).
    cbn [split_str_from]. 
    change (String ";" (String " " rest)) with ("; " ++ rest).
    now rewrite prefix_sep_here.
  - simpl in H. apply orb_false_iff in H as [Hc Hr].
    change ((String c r) ++ "; " ++ rest) with (String c (r ++ "; " ++ rest)).
    cbn [split_str_from]. rewrite (prefix_sep_not_here _ _ Hc).
    now rewrite (IH Hr).
Qed.

Lemma split_str_last (r : string) :
  mem ";" r = false -> split_str "; " r = [r].
Proof.
  unfold split_str. induction r as [|c r IH]; intros H; [reflexivity|].
  simpl in H. apply orb_false_iff in H as [Hc Hr].
  cbn [split_str_from]. rewrite (prefix_sep_not_here _ _ Hc).
  now rewrite (IH Hr).
Qed.

(** Splitting undoes joining, for rows without [';']. *)
Lemma split_str_concat (r : string) (rows : list string) :
  Forall (fun x => mem ";" x = false) (r :: rows) ->
  split_str "; " (String.concat "; " (r :: rows)) = r :: rows.
Proof.
  revert r. induction rows as [|r' rows IH]; intros r H.
  - inversion H; subst. now apply split_str_last.
  - inversion H as [|? ? Hr Hrest]; subst.
    change (String.concat "; " (r :: r' :: rows))
      with (r ++ "; " ++ String.concat "; " (r' :: rows)).
    rewrite split_str_row by exact Hr. now rewrite IH.
Qed.

Lemma plain_no_semicolon (s : string) : plain s = true -> mem ";" s = false.
Proof.
  unfold plain. intros H. apply andb_true_iff in H as [H _].
  now apply negb_true_iff in H.
Qed.

Lemma plain_no_equals (s : string) : plain s = true -> mem "=" s = false.
Proof.
  unfold plain. intros H. apply andb_true_iff in H as [_ H].
  now apply negb_true_iff in H.
Qed.

(** A row starts with "name=" exactly when it is the row of that name. *)
Lemma starts_with_name (name n v : string) :
  mem "=" name = false -> mem "=" n = false ->
  startsWith (name ++ "=") (n ++ "=" ++ v) = String.eqb n name.
Proof.
  unfold startsWith. revert n. induction name as [|a name IH]; intros n Hname Hn.
  - destruct n as [|b n]; [now destruct v|].
    simpl in Hn. apply orb_false_iff in Hn as [Hb _].
    cbn [append String.prefix]. destruct (ascii_dec "=" b) as [<-|_]; [discriminate | reflexivity].
  - simpl in Hname. apply orb_false_iff in Hname as [Ha Hname].
    destruct n as [|b n].
    + cbn [append String.prefix String.eqb]. destruct (ascii_dec a "=") as [->|_]; [discriminate | reflexivity].
    + simpl in Hn. apply orb_false_iff in Hn as [_ Hn].
      cbn [append String.prefix String.eqb]. destruct (ascii_dec a b) as [->|Hab].
      * rewrite Ascii.eqb_refl. now apply IH.
      * destruct (Ascii.eqb_spec b a) as [->|_]; [now elim Hab | reflexivity].
Qed.

Lemma rows_no_semicolon (jar : list (string * string)) :
  well_formed_jar jar ->
  Forall (fun x => mem ";" x = false) (map (fun nv => fst nv ++ "=" ++ snd nv) jar).
Proof.
  intros H. induction H as [|nv jar [Hn Hv] _ IH]; simpl; constructor; [|exact IH].
  rewrite mem_app. simpl. now rewrite (plain_no_semicolon _ Hn), Hv.
Qed.

Lemma find_row (name : string) (jar : list (string * string)) :
  well_formed_jar jar -> mem "=" name = false ->
  find (fun row => startsWith (name ++ "=") row)
       (map (fun nv => fst nv ++ "=" ++ snd nv) jar)
  = match find (fun nv => String.eqb (fst nv) name) jar with
    | Some nv => Some (fst nv ++ "=" ++ snd nv)
    | None => None
    end.
Proof.
  intros H Hname. induction H as [|nv jar [Hn Hv] _ IH]; [reflexivity|].
  cbn [map find].
  rewrite (starts_with_name name (fst nv) (snd nv) Hname (plain_no_equals _ Hn)).
  destruct (String.eqb (fst nv) name); [reflexivity | exact IH].
Qed.

End CookieFacts.

(** [getCookie] on the rendering of a list of cookies. *)
Lemma getCookie_spec (decodeURIComponent : string -> option string)
    (jar : list (string * string)) (name : string) :
  well_formed_jar jar ->
  JsString.mem "=" name = false ->
  Cookies.getCookie decodeURIComponent (document_cookie jar) name
  = match lookup name jar with
    | Some v =>
        match decodeURIComponent (upto_equals v) with
        | Some x => Ret (Some x)
        | None => Throw URIError
        end
    | None => Ret None
    end.
Proof.
  intros Hjar Hname. unfold Cookies.getCookie, document_cookie, lookup.
  assert (Hfind :
    find (fun row => JsString.startsWith (name ++ "=") row)
         (JsString.split_str "; "
            (String.concat "; " (map (fun nv => fst nv ++ "=" ++ snd nv) jar)))
    = match find (fun nv => String.eqb (fst nv) name) jar with
      | Some nv => Some (fst nv ++ "=" ++ snd nv)
      | None => None
      end).
  { destruct jar as [|nv jar].
    - simpl. now destruct name.
    - rewrite <- (CookieFacts.find_row name (nv :: jar) Hjar Hname).
      f_equal. apply (CookieFacts.split_str_concat _ _ (CookieFacts.rows_no_semicolon _ Hjar)). }
  rewrite Hfind.
  destruct (find (fun nv => String.eqb (fst nv) name) jar) as [[n v]|] eqn:E;
    [|reflexivity].
  assert (Hn : JsString.mem "=" n = false).
  { apply find_some in E as [Hin _].
    unfold well_formed_jar in Hjar. rewrite Forall_forall in Hjar.
    now apply CookieFacts.plain_no_equals, (proj1 (Hjar _ Hin)). }
  cbn [fst snd]. 
  assert (Ht : JsString.truthy (Some (n ++ "=" ++ v)) = true).
  { unfold JsString.truthy. change (n ++ "=" ++ v) with (n ++ String "=" v).
    now rewrite StringFacts.eqb_empty_app. }
  rewrite Ht. cbn [Cookies.or_undefined].
  change (n ++ "=" ++ v) with (n ++ String "=" v).
  rewrite StringFacts.split_app_sep by exact Hn.
  unfold upto_equals. cbn [JsString.index nth_error].
  pose proof (StringFacts.split_nonempty "=" v) as Hne.
  destruct (JsString.split "=" v) as [|x xs]; [now elim Hne | reflexivity].
Qed.

(** X19.  On the text the browser renders for a list of cookies,
    [getCookie(name)] is the lookup of the first cookie of that name: it
    returns [null] when there is none, and otherwise the decoding of the
    value cut at its first ['='] -- the whole value when it holds none, as
    every value written through [encodeURIComponent] does.  A value that
    does not decode makes it throw. *)
Theorem getCookie_is_lookup (decodeURIComponent : string -> option string)
    (jar : list (string * string)) (name : string) :
  well_formed_jar jar ->
  JsString.mem "=" name = false ->
  Cookies.getCookie decodeURIComponent (document_cookie jar) name
  = match lookup name jar with
    | Some v =>
        match decodeURIComponent (upto_equals v) with
        | Some x => Ret (Some x)
        | None => Throw URIError
        end
    | None => Ret None
    end.
Proof. exact (getCookie_spec decodeURIComponent jar name). Qed.

Lemma lookup_app (name v : string) (before after : list (string * string)) :
  lookup name before = None ->
  lookup name (before ++ (name, v) :: after) = Some v.
Proof.
  unfold lookup. induction before as [|nv before IH]; simpl.
  - now rewrite String.eqb_refl.
  - destruct (String.eqb (fst nv) name); [discriminate | exact IH].
Qed.

(** X20.  What [setCookie] writes, [getCookie] reads back: the pair of the
    assignment is name=encoded value, and on any list of cookies where
    that pair is the first of its name, [getCookie(name)] returns the
    value, provided the encoding holds no [';'] and no ['='] and decodes
    to the value, as [encodeURIComponent] and [decodeURIComponent] do. *)
Theorem cookie_round_trip (encodeURIComponent : string -> string)
    (decodeURIComponent : string -> option string)
    (name value expires : string) (before after : list (string * string)) :
  decodeURIComponent (encodeURIComponent value) = Some value ->
  plain name = true ->
  plain (encodeURIComponent value) = true ->
  well_formed_jar before -> well_formed_jar after ->
  lookup name before = None ->
  CookieWrites.pair_of (CookieWrites.setCookie encodeURIComponent name value expires)
  = name ++ "=" ++ encodeURIComponent value
  /\ Cookies.getCookie decodeURIComponent
       (document_cookie (before ++ (name, encodeURIComponent value) :: after)) name
     = Ret (Some value).
Proof.
  intros Hdec Hname Henc Hb Ha Hl. split.
  - unfold CookieWrites.pair_of, CookieWrites.setCookie.
    replace (name ++ "=" ++ encodeURIComponent value ++ "; expires=" ++ expires
                  ++ "; path=/; SameSite=Strict")
      with ((name ++ "=" ++ encodeURIComponent value)
              ++ "; " ++ ("expires=" ++ expires ++ "; path=/; SameSite=Strict"))
      by (rewrite !StringFacts.app_assoc; reflexivity).
    rewrite CookieFacts.split_str_row; [reflexivity|].
    rewrite StringFacts.mem_app. simpl.
    now rewrite (CookieFacts.plain_no_semicolon _ Hname),
                (CookieFacts.plain_no_semicolon _ Henc).
  - rewrite getCookie_spec.
    + rewrite (lookup_app name _ before after Hl).
      unfold upto_equals.
      rewrite (StringFacts.split_no_sep _ _ (CookieFacts.plain_no_equals _ Henc)).
      cbn [hd]. now rewrite Hdec.
    + unfold well_formed_jar in *. apply Forall_app. split; [exact Hb|].
      constructor; [|exact Ha]. cbn [fst snd]. split; [exact Hname|].
      now apply CookieFacts.plain_no_semicolon.
    + now apply CookieFacts.plain_no_equals.
Qed.

(* ===================================================================== *)
(** * The front ends against the router *)
(* ===================================================================== *)

Section Pages.
Context {B : Bcrypt} {P : JwtPrims}.
Variable decodeURIComponent : string -> option string.

(** The headers [getHeaders] builds from a token cookie that decodes. *)
Lemma getHeaders_of (cookie : string) (token : option string) :
  Cookies.getCookie decodeURIComponent cookie "token" = Ret token ->
  Api.getHeaders decodeURIComponent cookie
  = Ret (Api.mkHeaders "application/json"
           (if JsString.truthy token
            then Some ("Bearer " ++ Cookies.or_undefined token)
            else None)).
Proof. intros H. unfold Api.getHeaders. now rewrite H. Qed.

(** What the dashboard gets from the router. *)
Lemma getProtected_served (cookie : string) (env : Env) (t : list User) :
  Api.getProtected decodeURIComponent (router env t) cookie
  = match Cookies.getCookie decodeURIComponent cookie "token" with
    | Throw e => inl (Api.Rejected e)
    | Ret token =>
        match bearer_claim decodeURIComponent cookie (now_ms env) with
        | Some c =>
            inr (JsonObject
                   (Some ("Has entrado en ruta privada! y tu email es: " ++ c_email c))
                   None)
        | None =>
            if JsString.truthy token
            then inl (Api.HttpError "Unauthorized!"
                        (JsonObject (Some "Unauthorized!") None) 401)
            else inl (Api.HttpError "Incorrect Token! "
                        (JsonObject (Some "Incorrect Token! ") None) 403)
        end
    end.
Proof.
  unfold Api.getProtected, Api.call, Api.getHeaders, bearer_claim.
  destruct (Cookies.getCookie decodeURIComponent cookie "token") as [token|e];
    [|reflexivity].
  unfold router, call_of, request_of, serve.
  cbn [Api.endpoint Api.headers Api.payload Api.h_authorization].
  rewrite get_protected_cases. cbn [authorization fst].
  destruct (JsString.truthy token) eqn:Ht.
  - rewrite not_bearer_bearer.
    now destruct (verified (Some ("Bearer " ++ Cookies.or_undefined token)) (now_ms env)).
  - reflexivity.
Qed.

(** X21.  The dashboard shows the greeting of the protected route, with
    the email of the claim, exactly when the browser holds a non-empty
    token cookie that the router verifies; in every other case -- no
    cookie, an empty one, a token that fails or has expired, a cookie that
    does not decode -- it shows the one text "Error al obtener datos
    protegidos", never the message of the server.  It is never left
    loading. *)
Theorem dashboard_shows (cookie : string) (env : Env) (t : list User) :
  DashboardPage.fetchProtectedData decodeURIComponent (router env t) cookie
  = DashboardPage.mkState
      (Some match bearer_claim decodeURIComponent cookie (now_ms env) with
            | Some c => "Has entrado en ruta privada! y tu email es: " ++ c_email c
            | None => "Error al obtener datos protegidos"
            end)
      false.
Proof.
  unfold DashboardPage.fetchProtectedData. rewrite getProtected_served.
  unfold bearer_claim.
  destruct (Cookies.getCookie decodeURIComponent cookie "token") as [token|e];
    [|reflexivity].
  destruct (JsString.truthy token); [|reflexivity].
  now destruct (verified (Some ("Bearer " ++ Cookies.or_undefined token)) (now_ms env)).
Qed.

(** X22.  A browser whose token cookie is non-empty but does not verify
    is let through by the route guard of the Redux front end and refused
    by the router: the protected page is rendered, and the data it asks
    for come back as the error text. *)
Theorem page_shown_data_refused (cookie token : string) (s0 : AuthSlice.State)
    (env : Env) (t : list User) :
  AuthSlice.initialState decodeURIComponent cookie = Ret s0 ->
  Cookies.getCookie decodeURIComponent cookie "token" = Ret (Some token) ->
  token <> "" ->
  verified (Some ("Bearer " ++ token)) (now_ms env) = None ->
  AuthSlice.ProtectedRoute (AuthSlice.mkRoot s0) = Children
  /\ DashboardPage.fetchProtectedData decodeURIComponent (router env t) cookie
     = DashboardPage.mkState (Some "Error al obtener datos protegidos") false.
Proof.
  intros Hinit Hc Hne Hv.
  assert (Ht : JsString.truthy (Some token) = true).
  { unfold JsString.truthy. now destruct (String.eqb_spec token ""). }
  split.
  - destruct (FrontendFacts.initialState_inv _ _ _ Hinit) as (Hc' & Hl & Hs).
    rewrite Hc in Hc'. injection Hc' as Htok.
    unfold AuthSlice.ProtectedRoute, AuthSlice.selectLoading,
      AuthSlice.selectIsAuthenticated. cbn [AuthSlice.auth].
    unfold AuthSlice.in_step in Hs. now rewrite Hl, Hs, <- Htok, Ht.
  - unfold DashboardPage.fetchProtectedData. rewrite getProtected_served.
    unfold bearer_claim. rewrite Hc, Ht. cbn [Cookies.or_undefined]. now rewrite Hv.
Qed.

(** What the login page gets from the router. *)
Lemma signin_served (cookie : string) (token0 : option string)
      (mail pass : string) (env : Env) (t : list User) :
  Cookies.getCookie decodeURIComponent cookie "token" = Ret token0 ->
  Api.signin decodeURIComponent (router env t) cookie mail pass
  = match find (fun r => String.eqb (email r) mail) t with
    | None => inl (Api.HttpError "Users not exists!"
                     (JsonObject (Some "Users not exists!") None) 400)
    | Some u =>
        if bcrypt_compare pass (password u)
        then inr (JsonObject (Some "Login ok!")
                    (Some (Jwt.sign mail jwt_token_secret expiresIn_1h (now_ms env))))
        else inl (Api.HttpError "Incorrect password!"
                    (JsonObject (Some "Incorrect password!") None) 400)
    end.
Proof.
  intros Hc. unfold Api.signin, Api.call. rewrite (getHeaders_of _ _ Hc).
  unfold router, call_of, request_of, serve.
  cbn [Api.endpoint Api.headers Api.payload Api.h_authorization].
  rewrite signin_cases. cbn [body b_email b_password].
  destruct (find (fun r => String.eqb (email r) mail) t) as [u|]; [|reflexivity].
  now destruct (bcrypt_compare pass (password u)).
Qed.

(** X23.  The login page against the router, in a browser whose token
    cookie decodes, whatever state the slice was in: with an email no
    stored row has it ends logged out with the error "Users not exists!";
    with a stored email and a password bcrypt rejects,
    logged out with the error "Incorrect password!"; otherwise logged in
    as the email typed, holding the token of the router, which it asks to
    be kept in the token cookie, and on its way to /dashboard.  A failed
    login asks nothing of the cookies. *)
Theorem login_against_router (cookie : string) (token0 : option string)
    (mail pass : string) (st : AuthSlice.State) (env : Env) (t : list User) :
  Cookies.getCookie decodeURIComponent cookie "token" = Ret token0 ->
  LoginPage.handleSubmit decodeURIComponent (router env t) cookie mail pass st
  = match find (fun r => String.eqb (email r) mail) t with
    | None => (login_failed "Users not exists!", [], None)
    | Some u =>
        if bcrypt_compare pass (password u)
        then (logged_in mail
                (Some (Jwt.sign mail jwt_token_secret expiresIn_1h (now_ms env))),
              [SetCookie "token" (Jwt.sign mail jwt_token_secret expiresIn_1h (now_ms env))],
              Some "/dashboard")
        else (login_failed "Incorrect password!", [], None)
    end.
Proof.
  intros Hc. unfold LoginPage.handleSubmit. rewrite (signin_served _ _ _ _ _ _ Hc).
  destruct (find (fun r => String.eqb (email r) mail) t) as [u|]; [|reflexivity].
  now destruct (bcrypt_compare pass (password u)).
Qed.

(** X24.  The login page on any server, for a reply whose body is not
    JSON, is [null], or reads strings or nothing under message and
    accessToken: once the headers are built, the outcome does not depend
    on the state the slice was in.  The page logs in only on a 2xx reply
    with a JSON body that is not [null], and then with whatever the body
    holds under accessToken, even nothing.  A reply of another status with
    such a body logs out and shows its message, or "Error al iniciar
    sesión" when it has none.  A reply whose body is not JSON, such as an
    empty 204, or is [null], logs out with that same text whatever its
    status; so does a request that fails. *)
Theorem login_on_any_reply (net : Api.Network) (cookie : string) (h : Api.Headers)
    (mail pass : string) (st : AuthSlice.State) :
  Api.getHeaders decodeURIComponent cookie = Ret h ->
  LoginPage.handleSubmit decodeURIComponent net cookie mail pass st
  = match net (Api.mkFetch Api.AuthSignin h (mkBody None (Some mail) (Some pass))) with
    | Some r =>
        match r_body r with
        | Some (JsonObject msg accessToken) =>
            if Api.response_ok r
            then (logged_in mail accessToken,
                  [SetCookie "token" (Cookies.or_undefined accessToken)],
                  Some "/dashboard")
            else (login_failed (or_else msg "Error al iniciar sesión"), [], None)
        | Some JsonNull | None => (login_failed "Error al iniciar sesión", [], None)
        end
    | None => (login_failed "Error al iniciar sesión", [], None)
    end.
Proof.
  intros Hh. unfold LoginPage.handleSubmit, Api.signin, Api.call. rewrite Hh.
  destruct (net _) as [r|]; [|reflexivity].
  unfold Api.handleResponse.
  destruct (r_body r) as [[|msg accessToken]|]; [| |reflexivity];
    now destruct (Api.response_ok r).
Qed.

(** What the register page gets from the router. *)
Lemma signup_served (cookie : string) (token0 : option string)
      (name mail pass : string) (env : Env) (t : list User) :
  Cookies.getCookie decodeURIComponent cookie "token" = Ret token0 ->
  Api.signup decodeURIComponent (router env t) cookie name mail pass
  = match find (fun r => String.eqb (email r) mail) t with
    | Some _ => inl (Api.HttpError "Users exists!"
                       (JsonObject (Some "Users exists!") None) 400)
    | None =>
        if existsb (fun r => String.eqb (id r) (uuid env)) t
        then inl (Api.HttpError "Create user Error"
                    (JsonObject (Some "Create user Error") None) 500)
        else inr (JsonObject (Some "Users created!") None)
    end.
Proof.
  intros Hc. unfold Api.signup, Api.call. rewrite (getHeaders_of _ _ Hc).
  unfold router, call_of, request_of, serve.
  cbn [Api.endpoint Api.headers Api.payload Api.h_authorization].
  rewrite signup_cases. cbn [body b_email b_password b_username].
  destruct (find (fun r => String.eqb (email r) mail) t); [reflexivity|].
  now destruct (existsb (fun r => String.eqb (id r) (uuid env)) t).
Qed.

(** X25.  The register page against the router, in a browser whose token
    cookie decodes: with a stored email it stays on the page with the
    error "Users exists!"; with a new email and
    an id no row has it goes to /login with no error; the three fields of
    the form are sent as they are, empty or not.  It is never left
    loading. *)
Theorem register_against_router (cookie : string) (token0 : option string)
    (name mail pass : string) (env : Env) (t : list User) :
  Cookies.getCookie decodeURIComponent cookie "token" = Ret token0 ->
  RegisterPage.handleSubmit decodeURIComponent (router env t) cookie name mail pass
  = match find (fun r => String.eqb (email r) mail) t with
    | Some _ => (RegisterPage.mkState "Users exists!" false, None)
    | None =>
        if existsb (fun r => String.eqb (id r) (uuid env)) t
        then (RegisterPage.mkState "Create user Error" false, None)
        else (RegisterPage.mkState "" false, Some "/login")
    end.
Proof.
  intros Hc. unfold RegisterPage.handleSubmit. rewrite (signup_served _ _ _ _ _ _ _ Hc).
  destruct (find (fun r => String.eqb (email r) mail) t); [reflexivity|].
  now destruct (existsb (fun r => String.eqb (id r) (uuid env)) t).
Qed.


End Pages.

(** X27.  In the Redux slice, from the state it starts in and through any
    run of actions, a user is held only while the flag is on: whenever
    [selectUser] is not null, [selectIsAuthenticated] is true. *)
Theorem user_only_when_flagged (decodeURIComponent : string -> option string)
    (cookie : string) (s0 : AuthSlice.State) (actions : list AuthSlice.Action) :
  AuthSlice.initialState decodeURIComponent cookie = Ret s0 ->
  user_flagged (AuthSlice.dispatch_all s0 actions).
Proof.
  intros Hinit.
  assert (H0 : user_flagged s0).
  { unfold AuthSlice.initialState in Hinit.
    destruct (Cookies.getCookie decodeURIComponent cookie "token"); [|discriminate].
    injection Hinit as <-. now left. }
  clear Hinit. revert s0 H0.
  induction actions as [|a actions IH]; intros s H; [exact H|].
  apply IH. destruct a; unfold user_flagged in *; cbn; auto.
Qed.

(** X28.  In the Context provider, the effect that follows a change of
    the token asks for the cookie to be set to the token exactly when
    [isAuthenticated] is true, and for its deletion otherwise; it turns
    [loading] off, and no later login, logout or effect turns it on
    again. *)
Theorem context_effect (st : UserContext.State) (ops : list UserContext.Op) :
  snd (UserContext.effect st)
  = (if UserContext.isAuthenticated st
     then SetCookie "token" (Cookies.or_undefined (UserContext.token st))
     else DeleteCookie "token")
  /\ UserContext.loading (UserContext.run (fst (UserContext.effect st)) ops) = false.
Proof.
  split; [reflexivity|].
  assert (H : UserContext.loading (fst (UserContext.effect st)) = false) by reflexivity.
  revert H. generalize (fst (UserContext.effect st)).
  induction ops as [|o ops IH]; intros s H; [exact H|].
  apply IH. now destruct o.
Qed.

(* ===================================================================== *)
(** * The scenario, run *)
(* ===================================================================== *)

Section Runs.
Import Scenario.
#[local] Existing Instance Reference.prims.
#[local] Existing Instance Reference.bcrypt.

(** [validate_until_expiry] on alice's token: valid at the sign-in and one
    second before the hour is over, expired two hours later. *)
Lemma validate_until_expiry_witness :
  Jwt.Laws Reference.prims
  /\ 0 < expiresIn_1h
  /\ Jwt.seconds 1700003659000 < Jwt.seconds (now_ms env_signin) + expiresIn_1h
  /\ Jwt.seconds (now_ms env_signin) + expiresIn_1h <= Jwt.seconds (now_ms env_late)
  /\ Jwt.verify (Some token) jwt_token_secret (now_ms env_signin)
     = inr (mkClaims "alice@x.com" 1700000060 1700003660)
  /\ Jwt.verify (Some token) jwt_token_secret 1700003659000
     = inr (mkClaims "alice@x.com" 1700000060 1700003660)
  /\ Jwt.verify (Some token) jwt_token_secret (now_ms env_late) = inl Expired.
Proof.
  pose proof (validate_until_expiry ReferenceFacts.prims_laws "alice@x.com"
                jwt_token_secret expiresIn_1h (now_ms env_signin) 1700003659000 (eq_refl : 0 < expiresIn_1h))
    as (H0 & H1 & _).
  pose proof (validate_until_expiry ReferenceFacts.prims_laws "alice@x.com"
                jwt_token_secret expiresIn_1h (now_ms env_signin) (now_ms env_late) (eq_refl : 0 < expiresIn_1h))
    as (_ & _ & H2).
  split; [exact ReferenceFacts.prims_laws|].
  split; [reflexivity|].
  split; [reflexivity|].
  split; [vm_compute; discriminate|].
  split; [exact H0|].
  split; [apply H1; reflexivity | apply H2; vm_compute; discriminate].
Defined.


(** A signature function that satisfies the laws of the primitives and
    has collisions does not protect the payload: under a signature that
    is the same for every text, alice's token with the first character of
    its payload overwritten validates, as another identity. *)
Lemma colliding_signature_admits_forgery :
  let P := Reference.colliding_prims in
  let h := Jwt.header_segment in
  let p := Jwt.payload_of (P := P) "alice@x.com" expiresIn_1h (now_ms env_signin) in
  let s := Jwt.signature_of (P := P) "alice@x.com" jwt_token_secret expiresIn_1h
                            (now_ms env_signin) in
  Jwt.Laws P
  /\ Jwt.changes_char 1 "2" (Jwt.segment_text Jwt.PayloadSegment p s)
  /\ Jwt.verify (P := P) (Some (h ++ "." ++ p ++ "." ++ s))
                jwt_token_secret (now_ms env_signin)
     = inr (mkClaims "alice@x.com" 1700000060 1700003660)
  /\ Jwt.verify (P := P) (Some (Jwt.tamper Jwt.PayloadSegment 1 "2" h p s))
                jwt_token_secret (now_ms env_signin)
     = inr (mkClaims "blice@x.com" 1700000060 1700003660).
Proof.
  split; [exact ReferenceFacts.colliding_prims_laws|].
  split; [exists "1"%char; split; [reflexivity | discriminate]|].
  split; vm_compute; reflexivity.
Qed.


(** [signup_existing_email] on the table that holds alice. *)
Lemma signup_existing_email_witness :
  In alice table
  /\ b_email (body mallory_signup) = Some (email alice)
  /\ signup mallory_signup env_late (fresh table)
     = (mkSt table (Some (mkResponse 400 (message "Users exists!"))) None [] 0 [], Ret tt).
Proof.
  split; [now left|]. split; [reflexivity|].
  apply (signup_existing_email table alice mallory_signup env_late);
    [now left | reflexivity].
Defined.

(** C10, as stated, fails: a sign-up without a password and with alice's
    email is answered 400, not 500, and nothing is hashed or logged. *)
Lemma signup_without_password_existing_email :
  b_password (body mallory_signup) = None
  /\ signup mallory_signup env_late (fresh table)
     = (mkSt table (Some (mkResponse 400 (message "Users exists!"))) None [] 0 [], Ret tt).
Proof. split; reflexivity. Qed.

(** [signup_without_password] on a request with an unused email. *)
Lemma signup_without_password_witness :
  b_password (body bob_signup) = None
  /\ b_email (body bob_signup) = Some "bob@x.com"
  /\ (forall r, In r table -> email r <> "bob@x.com")
  /\ hashSync (b_password (body bob_signup)) (salt env_late) (fresh table)
     = (fresh table, Throw IllegalArguments)
  /\ signup bob_signup env_late (fresh table)
     = (mkSt table (Some (mkResponse 500 (message "Create user Error"))) None
             [IllegalArguments] 0 [], Ret tt).
Proof.
  assert (Habs : forall r, In r table -> email r <> "bob@x.com").
  { intros r [<-|[]]. discriminate. }
  split; [reflexivity|]. split; [reflexivity|]. split; [exact Habs|].
  exact (signup_without_password table bob_signup env_late "bob@x.com"
           eq_refl eq_refl Habs).
Defined.

(** C2, as stated, fails: on the table that holds alice, the answer to an
    unknown email and the answer to alice's email with a wrong password
    carry different messages. *)
Lemma signin_failures_distinguishable :
  let r1 := response (fst (signin (mkRequest None (mkBody None (Some "bob@x.com") (Some "wrong")))
                                  env_signin (fresh table))) in
  let r2 := response (fst (signin (mkRequest None (mkBody None (Some "alice@x.com") (Some "wrong")))
                                  env_signin (fresh table))) in
  r1 = Some (mkResponse 400 (message "Users not exists!"))
  /\ r2 = Some (mkResponse 400 (message "Incorrect password!"))
  /\ r1 <> r2.
Proof.
  split; [reflexivity|]. split; [reflexivity|]. discriminate.
Qed.

(** [signin_failures] on the table that holds alice. *)
Lemma signin_failures_witness :
  let r1 := response (fst (signin (mkRequest None (mkBody None (Some "bob@x.com") (Some "wrong")))
                                  env_signin (fresh table))) in
  let r2 := response (fst (signin (mkRequest None (mkBody None (Some "alice@x.com") (Some "wrong")))
                                  env_signin (fresh table))) in
  (forall r, In r table -> email r <> "bob@x.com")
  /\ UserModel.findOne (Some "alice@x.com") table = Ret (Some alice)
  /\ bcrypt_compare "wrong" (password alice) = false
  /\ r1 = Some (mkResponse 400 (message "Users not exists!"))
  /\ r2 = Some (mkResponse 400 (message "Incorrect password!"))
  /\ option_map status r1 = option_map status r2
  /\ r1 <> r2.
Proof.
  intros r1 r2.
  assert (Habs : forall r, In r table -> email r <> "bob@x.com").
  { intros r [<-|[]]. discriminate. }
  split; [exact Habs|]. split; [reflexivity|]. split; [reflexivity|].
  exact (signin_failures table env_signin env_signin "bob@x.com" "alice@x.com"
           (Some "wrong") (Some "wrong") "wrong" alice
           Habs eq_refl eq_refl eq_refl).
Defined.

(** C7, as stated, fails: the answer to alice's sign-up carries, under
    [user], six fields, among them [password] with the hash that went
    into the table. *)
Lemma signup_response_carries_hash :
  let st := fst (signup alice_signup env_signup (fresh [])) in
  option_map status (response st) = Some 201
  /\ users st = [alice]
  /\ option_map json (response st)
     = Some (JObj [("message", JStr "Users created!"); ("user", toJSON alice)])
  /\ json_keys (toJSON alice) <> ["id"; "username"; "email"]
  /\ json_field "password" (toJSON alice) = Some (JStr (password alice)).
Proof.
  split; [reflexivity|]. split; [reflexivity|]. split; [reflexivity|].
  split; [discriminate | reflexivity].
Qed.

(** [signup_response_body] on alice's sign-up. *)
Lemma signup_response_body_witness :
  let st := fst (signup alice_signup env_signup (fresh [])) in
  option_map status (response st) = Some 201
  /\ exists u p,
      b_password (body alice_signup) = Some p
      /\ users st = ([] ++ [u])%list
      /\ password u = bcrypt_hash p (salt env_signup)
      /\ option_map json (response st)
         = Some (JObj [("message", JStr "Users created!"); ("user", toJSON u)])
      /\ json_keys (toJSON u)
         = ["id"; "username"; "email"; "password"; "updatedAt"; "createdAt"]
      /\ json_field "password" (toJSON u) = Some (JStr (bcrypt_hash p (salt env_signup))).
Proof.
  split; [reflexivity|].
  exact (signup_response_body [] alice_signup env_signup eq_refl).
Defined.

(** [create_accepts_duplicate_email] on the table that holds alice: a row
    with her email and a new id is inserted, and the table then holds her
    email twice. *)
Lemma create_accepts_duplicate_email_witness :
  let u := mkUser (uuid env_late) "mallory" "alice@x.com"
                  (bcrypt_hash "pw" (salt env_late)) (now_ms env_late) (now_ms env_late) in
  In alice table
  /\ (forall r, In r table -> id r <> uuid env_late)
  /\ UserModel.create (mkAttrs (uuid env_late) (Some "mallory") (Some (email alice))
                               (Some (bcrypt_hash "pw" (salt env_late))))
                      (now_ms env_late) table
     = Ret (u, [alice; u])
  /\ email u = email alice
  /\ u <> alice
  /\ (2 <= length (filter (fun r => String.eqb (email r) (email alice)) [alice; u]))%nat
  /\ signup (mkRequest None (mkBody (Some "mallory") (Some (email alice)) (Some "pw")))
            env_late (fresh table)
     = (mkSt table (Some (mkResponse 400 (message "Users exists!"))) None [] 0 [], Ret tt).
Proof.
  intros u.
  assert (Hin : In alice table) by now left.
  assert (Hid : forall r, In r table -> id r <> uuid env_late).
  { intros r [<-|[]]. discriminate. }
  split; [exact Hin|]. split; [exact Hid|].
  destruct (create_accepts_duplicate_email (B := Reference.bcrypt)) as (_ & Hcreate & _ & Hsignup).
  destruct (Hcreate table alice (uuid env_late) "mallory"
                    (bcrypt_hash "pw" (salt env_late)) (now_ms env_late) Hin Hid)
    as (Hc & He & Hne & Htwice).
  split; [exact Hc|]. split; [exact He|]. split; [exact Hne|]. split; [exact Htwice|].
  exact (proj1 (Hsignup table alice None "mallory" "pw" env_late Hin Hid)).
Defined.


(** [other_scheme_reaches_handler] on alice's token behind the scheme
    "Token": the client is told 403 and the protected handler runs. *)
Lemma other_scheme_reaches_handler_witness :
  let req := mkRequest (Some ("Token" ++ " " ++ token)) no_body in
  let st := fst (get_protected req env_signin (fresh table)) in
  Jwt.Laws Reference.prims
  /\ JsString.mem " " "Token" = false
  /\ JsString.startsWith "Bearer " ("Token" ++ " " ++ token) = false
  /\ Jwt.seconds (now_ms env_signin) < Jwt.seconds (now_ms env_signin) + expiresIn_1h
  /\ not_bearer (authorization req) = true
  /\ response st = Some (mkResponse 403 (message "Incorrect Token! "))
  /\ next_calls st = 1%nat
  /\ option_map c_email (req_user st) = Some "alice@x.com".
Proof.
  intros req st.
  split; [exact ReferenceFacts.prims_laws|].
  split; [reflexivity|]. split; [reflexivity|]. split; [reflexivity|].
  exact (other_scheme_reaches_handler ReferenceFacts.prims_laws "Token" "alice@x.com"
           (now_ms env_signin) no_body env_signin table eq_refl eq_refl eq_refl).
Defined.

(** C8, as stated, fails: from the state the slice starts in without a
    cookie, [loginSuccess] with an empty token leaves an empty token in the
    state and the flag on, and the guard shows the protected page. *)
Lemma loginSuccess_sets_flag_without_token :
  let s := fst (AuthSlice.reducer logged_out
                  (AuthSlice.loginSuccess
                     (AuthSlice.mkCredentials (Some "") (Some "alice@x.com")))) in
  AuthSlice.initialState Reference.plain_decode "" = Ret logged_out
  /\ AuthSlice.token s = Some ""
  /\ AuthSlice.isAuthenticated s = true
  /\ AuthSlice.isAuthenticated s <> JsString.truthy (AuthSlice.token s)
  /\ AuthSlice.ProtectedRoute (AuthSlice.mkRoot s) = Children.
Proof.
  split; [reflexivity|]. split; [reflexivity|]. split; [reflexivity|].
  split; [discriminate | reflexivity].
Qed.

(** [isAuthenticated_follows_token] on a browser whose 'token' cookie is
    not a token of the server: both front ends start authenticated, the
    guard shows the protected page, and flag and token stay in step over a
    login and a logout. *)
Lemma isAuthenticated_follows_token_witness :
  let cookie := "theme=dark; token=not-a-jwt" in
  let s0 := AuthSlice.mkState None (Some "not-a-jwt") false None true in
  let actions := [AuthSlice.loginStart;
                  AuthSlice.loginSuccess (AuthSlice.mkCredentials (Some token) (Some "alice@x.com"));
                  AuthSlice.logout] in
  AuthSlice.initialState Reference.plain_decode cookie = Ret s0
  /\ Cookies.getCookie Reference.plain_decode cookie "token" = Ret (Some "not-a-jwt")
  /\ "not-a-jwt" <> ""
  /\ AuthSlice.tokens_present actions
  /\ AuthSlice.ProtectedRoute (AuthSlice.mkRoot s0) = Children
  /\ AuthSlice.isAuthenticated (AuthSlice.dispatch_all s0 actions)
     = JsString.truthy (AuthSlice.token (AuthSlice.dispatch_all s0 actions))
  /\ UserContext.init Reference.plain_decode cookie
     = Ret (UserContext.mkState None (Some "not-a-jwt") true)
  /\ UserContext.isAuthenticated (UserContext.mkState None (Some "not-a-jwt") true) = true.
Proof.
  intros cookie s0 actions.
  assert (Hinit : AuthSlice.initialState Reference.plain_decode cookie = Ret s0)
    by reflexivity.
  assert (Hcookie : Cookies.getCookie Reference.plain_decode cookie "token"
                    = Ret (Some "not-a-jwt")) by reflexivity.
  assert (Hne : "not-a-jwt" <> "") by discriminate.
  assert (Hall : AuthSlice.tokens_present actions).
  { repeat constructor. }
  destruct (isAuthenticated_follows_token Reference.plain_decode cookie)
    as (_ & _ & Hredux & _ & Hguard).
  split; [exact Hinit|]. split; [exact Hcookie|]. split; [exact Hne|].
  split; [exact Hall|].
  split; [exact (Hguard s0 "not-a-jwt" Hinit Hcookie Hne)|].
  split; [exact (proj2 (Hredux s0 Hinit) actions Hall)|].
  split; reflexivity.
Defined.
End Runs.

(* ===================================================================== *)
(** * More of the scenario, run *)
(* ===================================================================== *)

Section MoreRuns.
Import Scenario.
#[local] Existing Instance Reference.prims.
#[local] Existing Instance Reference.bcrypt.

(** [signup_without_username] on a request with an unused email. *)
Lemma signup_without_username_witness :
  let req := mkRequest None (mkBody None (Some "bob@x.com") (Some "hunter2")) in
  b_username (body req) = None
  /\ b_email (body req) = Some "bob@x.com"
  /\ b_password (body req) = Some "hunter2"
  /\ (forall r, In r table -> email r <> "bob@x.com")
  /\ signup req env_late (fresh table)
     = (mkSt table (Some (mkResponse 500 (message "Create user Error"))) None
             [ValidationError Cusername] 0 [], Ret tt).
Proof.
  intros req.
  assert (Habs : forall r, In r table -> email r <> "bob@x.com").
  { intros r [<-|[]]. discriminate. }
  split; [reflexivity|]. split; [reflexivity|]. split; [reflexivity|].
  split; [exact Habs|].
  exact (signup_without_username req env_late table "bob@x.com" "hunter2"
           eq_refl eq_refl eq_refl Habs).
Defined.

(** [signup_id_collision] when the generator returns alice's id again. *)
Lemma signup_id_collision_witness :
  let req := mkRequest None (mkBody (Some "bob") (Some "bob@x.com") (Some "hunter2")) in
  (forall r, In r table -> email r <> "bob@x.com")
  /\ In alice table
  /\ id alice = uuid env_signup
  /\ signup req env_signup (fresh table)
     = (mkSt table (Some (mkResponse 500 (message "Create user Error"))) None
             [UniqueConstraintError Cid] 0 [], Ret tt).
Proof.
  intros req.
  assert (Habs : forall r, In r table -> email r <> "bob@x.com").
  { intros r [<-|[]]. discriminate. }
  assert (Hin : In alice table) by now left.
  split; [exact Habs|]. split; [exact Hin|]. split; [reflexivity|].
  exact (signup_id_collision req env_signup table "bob" "bob@x.com" "hunter2" alice
           eq_refl Habs Hin eq_refl).
Defined.

(** [signin_without_password] on alice's email. *)
Lemma signin_without_password_witness :
  let req := mkRequest None (mkBody None (Some "alice@x.com") None) in
  b_password (body req) = None
  /\ b_email (body req) = Some (email alice)
  /\ In alice table
  /\ signin req env_signin (fresh table)
     = (mkSt table (Some (mkResponse 500 (message "Login user Error"))) None
             [IllegalArguments] 0 [], Ret tt).
Proof.
  intros req.
  assert (Hin : In alice table) by now left.
  split; [reflexivity|]. split; [reflexivity|]. split; [exact Hin|].
  exact (signin_without_password req env_signin table alice eq_refl eq_refl Hin).
Defined.

(** [emails_stay_distinct] on the table that holds alice, through a second
    sign-up with her email and a sign-up of bob. *)
Lemma emails_stay_distinct_witness :
  let calls := [PostSignup mallory_signup env_late;
                PostSignup (mkRequest None (mkBody (Some "bob") (Some "bob@x.com")
                                                   (Some "hunter2"))) env_late] in
  NoDup (map email table)
  /\ NoDup (map email (table_after calls table)).
Proof.
  intros calls.
  assert (H : NoDup (map email table)).
  { repeat constructor. intros []. }
  split; [exact H|]. exact (emails_stay_distinct calls table H).
Defined.

(** [ids_stay_distinct] on the same run. *)
Lemma ids_stay_distinct_witness :
  let calls := [PostSignup mallory_signup env_late;
                PostSignup (mkRequest None (mkBody (Some "bob") (Some "bob@x.com")
                                                   (Some "hunter2"))) env_late] in
  NoDup (map id table)
  /\ NoDup (map id (table_after calls table)).
Proof.
  intros calls.
  assert (H : NoDup (map id table)).
  { repeat constructor. intros []. }
  split; [exact H|]. exact (ids_stay_distinct calls table H).
Defined.


(** [trailing_words_ignored] on alice's token followed by more words. *)
Lemma trailing_words_ignored_witness :
  JsString.mem " " token = false
  /\ get_protected (mkRequest (Some ("Bearer " ++ token ++ " " ++ "and more words"))
                              no_body) env_signin (fresh table)
     = get_protected (mkRequest (Some ("Bearer " ++ token)) no_body)
                     env_signin (fresh table).
Proof.
  split; [reflexivity|].
  exact (trailing_words_ignored token "and more words" no_body env_signin table eq_refl).
Defined.

(** [issued_token_expires] on alice's sign-in, two hours later. *)
Lemma issued_token_expires_witness :
  Jwt.Laws Reference.prims
  /\ accessToken_of (response (fst (signin alice_signin env_signin (fresh table))))
     = Some token
  /\ Jwt.seconds (now_ms env_signin) + expiresIn_1h <= Jwt.seconds (now_ms env_late)
  /\ get_protected (mkRequest (Some ("Bearer " ++ token)) no_body) env_late (fresh table)
     = (mkSt table (Some (mkResponse 401 (message "Unauthorized!"))) None [] 0 [], Ret tt).
Proof.
  assert (Hexp : Jwt.seconds (now_ms env_signin) + expiresIn_1h
                 <= Jwt.seconds (now_ms env_late)) by (vm_compute; discriminate).
  split; [exact ReferenceFacts.prims_laws|]. split; [reflexivity|].
  split; [exact Hexp|].
  exact (issued_token_expires ReferenceFacts.prims_laws alice_signin env_signin env_late
           table table token no_body eq_refl Hexp).
Defined.

(** [getCookie_is_lookup] on two cookies. *)
Lemma getCookie_is_lookup_witness :
  let jar := [("theme", "dark"); ("token", "abc.def.ghi")] in
  well_formed_jar jar
  /\ JsString.mem "=" "token" = false
  /\ document_cookie jar = "theme=dark; token=abc.def.ghi"
  /\ Cookies.getCookie Reference.plain_decode (document_cookie jar) "token"
     = Ret (Some "abc.def.ghi").
Proof.
  intros jar.
  assert (Hjar : well_formed_jar jar).
  { repeat constructor. }
  split; [exact Hjar|]. split; [reflexivity|]. split; [reflexivity|].
  exact (getCookie_is_lookup Reference.plain_decode jar "token" Hjar eq_refl).
Defined.

(** [cookie_round_trip] on a token without reserved characters, for which
    encoding and decoding are the identity. *)
Lemma cookie_round_trip_witness :
  let encode := fun s : string => s in
  let expires := "Tue, 03 Nov 2026 00:00:00 GMT" in
  let before := [("theme", "dark")] in
  Reference.plain_decode (encode "abc.def.ghi") = Some "abc.def.ghi"
  /\ plain "token" = true
  /\ plain (encode "abc.def.ghi") = true
  /\ well_formed_jar before
  /\ lookup "token" before = None
  /\ CookieWrites.pair_of (CookieWrites.setCookie encode "token" "abc.def.ghi" expires)
     = "token=abc.def.ghi"
  /\ Cookies.getCookie Reference.plain_decode
       (document_cookie (before ++ [("token", encode "abc.def.ghi")])) "token"
     = Ret (Some "abc.def.ghi").
Proof.
  intros encode expires before.
  assert (Hb : well_formed_jar before) by repeat constructor.
  assert (Ha : well_formed_jar []) by constructor.
  split; [reflexivity|]. split; [reflexivity|]. split; [reflexivity|].
  split; [exact Hb|]. split; [reflexivity|].
  exact (cookie_round_trip encode Reference.plain_decode "token" "abc.def.ghi" expires
           before [] eq_refl eq_refl eq_refl Hb Ha eq_refl).
Defined.

(** [page_shown_data_refused] on a browser whose token cookie is not a
    token of the router. *)
Lemma page_shown_data_refused_witness :
  let cookie := "theme=dark; token=not-a-jwt" in
  let s0 := AuthSlice.mkState None (Some "not-a-jwt") false None true in
  AuthSlice.initialState Reference.plain_decode cookie = Ret s0
  /\ Cookies.getCookie Reference.plain_decode cookie "token" = Ret (Some "not-a-jwt")
  /\ "not-a-jwt" <> ""
  /\ verified (Some ("Bearer " ++ "not-a-jwt")) (now_ms env_signin) = None
  /\ AuthSlice.ProtectedRoute (AuthSlice.mkRoot s0) = Children
  /\ DashboardPage.fetchProtectedData Reference.plain_decode (router env_signin table) cookie
     = DashboardPage.mkState (Some "Error al obtener datos protegidos") false.
Proof.
  intros cookie s0.
  assert (Hne : "not-a-jwt" <> "") by discriminate.
  split; [reflexivity|]. split; [reflexivity|]. split; [exact Hne|].
  split; [reflexivity|].
  exact (page_shown_data_refused Reference.plain_decode cookie "not-a-jwt" s0
           env_signin table eq_refl eq_refl Hne eq_refl).
Defined.

(** [login_against_router] with alice's credentials, from a browser
    without cookies. *)
Lemma login_against_router_witness :
  Cookies.getCookie Reference.plain_decode "" "token" = Ret None
  /\ LoginPage.handleSubmit Reference.plain_decode (router env_signin table) ""
       "alice@x.com" "secret123" logged_out
     = (logged_in "alice@x.com" (Some token), [SetCookie "token" token], Some "/dashboard")
  /\ LoginPage.handleSubmit Reference.plain_decode (router env_signin table) ""
       "alice@x.com" "wrong" logged_out
     = (login_failed "Incorrect password!", [], None)
  /\ LoginPage.handleSubmit Reference.plain_decode (router env_signin table) ""
       "bob@x.com" "wrong" logged_out
     = (login_failed "Users not exists!", [], None).
Proof.
  split; [reflexivity|].
  split; [|split].
  - exact (login_against_router Reference.plain_decode "" None "alice@x.com" "secret123"
             logged_out env_signin table eq_refl).
  - exact (login_against_router Reference.plain_decode "" None "alice@x.com" "wrong"
             logged_out env_signin table eq_refl).
  - exact (login_against_router Reference.plain_decode "" None "bob@x.com" "wrong"
             logged_out env_signin table eq_refl).
Defined.

(** [login_on_any_reply] on three servers: one that answers 204 with an
    empty body, where the page ends logged out; one that answers 200 with
    an object that has no accessToken, where it ends logged in without a
    token; one that answers 503 with a message. *)
Lemma login_on_any_reply_witness :
  let empty_204 : Api.Network := fun _ => Some (mkReply 204 None) in
  let bare_200 : Api.Network := fun _ => Some (mkReply 200 (Some (JsonObject None None))) in
  let down_503 : Api.Network :=
    fun _ => Some (mkReply 503 (Some (JsonObject (Some "Service down") None))) in
  let h := Api.mkHeaders "application/json" None in
  Api.getHeaders Reference.plain_decode "" = Ret h
  /\ LoginPage.handleSubmit Reference.plain_decode empty_204 "" "alice@x.com" "secret123"
                            logged_out
     = (login_failed "Error al iniciar sesión", [], None)
  /\ LoginPage.handleSubmit Reference.plain_decode bare_200 "" "alice@x.com" "secret123"
                            logged_out
     = (logged_in "alice@x.com" None, [SetCookie "token" "undefined"], Some "/dashboard")
  /\ LoginPage.handleSubmit Reference.plain_decode down_503 "" "alice@x.com" "secret123"
                            logged_out
     = (login_failed "Service down", [], None).
Proof.
  intros empty_204 bare_200 down_503 h. split; [reflexivity|]. split; [|split].
  - exact (login_on_any_reply Reference.plain_decode empty_204 "" h "alice@x.com"
             "secret123" logged_out eq_refl).
  - exact (login_on_any_reply Reference.plain_decode bare_200 "" h "alice@x.com"
             "secret123" logged_out eq_refl).
  - exact (login_on_any_reply Reference.plain_decode down_503 "" h "alice@x.com"
             "secret123" logged_out eq_refl).
Defined.

(** [register_against_router] with alice's email, and with a new one. *)
Lemma register_against_router_witness :
  Cookies.getCookie Reference.plain_decode "" "token" = Ret None
  /\ RegisterPage.handleSubmit Reference.plain_decode (router env_late table) ""
       "mallory" "alice@x.com" "pw"
     = (RegisterPage.mkState "Users exists!" false, None)
  /\ RegisterPage.handleSubmit Reference.plain_decode (router env_late table) ""
       "bob" "bob@x.com" ""
     = (RegisterPage.mkState "" false, Some "/login").
Proof.
  split; [reflexivity|]. split.
  - exact (register_against_router Reference.plain_decode "" None "mallory" "alice@x.com"
             "pw" env_late table eq_refl).
  - exact (register_against_router Reference.plain_decode "" None "bob" "bob@x.com"
             "" env_late table eq_refl).
Defined.


(** [user_only_when_flagged] from a browser without cookies, through a
    login, a failed login and a logout. *)
Lemma user_only_when_flagged_witness :
  let actions := [AuthSlice.loginStart;
                  AuthSlice.loginSuccess (AuthSlice.mkCredentials (Some token)
                                                                  (Some "alice@x.com"));
                  AuthSlice.loginFailure (Some "Incorrect password!");
                  AuthSlice.logout] in
  AuthSlice.initialState Reference.plain_decode "" = Ret logged_out
  /\ user_flagged (AuthSlice.dispatch_all logged_out actions).
Proof.
  intros actions. split; [reflexivity|].
  exact (user_only_when_flagged Reference.plain_decode "" logged_out actions eq_refl).
Defined.

End MoreRuns.
